(** * NovaPay fraud detection web application: the request encoder and scorer

    A shallow embedding of [webapp/app.py]: the feature encoder
    [preprocess_input], the request handler [predict] and the recommendation
    table [get_recommendation], together with the part of the Python
    run time they rest on (JSON values, [float()], dictionaries, exceptions,
    binary64 arithmetic).

    Numbers are modelled as the program has them: Python [int] is [Z],
    Python [float] is the kernel's binary64 [float], and a JSON request is a
    tree of [json] values whose objects are finite maps keyed by strings. *)

From Stdlib Require Import ZArith Bool List String Ascii.
From Stdlib Require Import Floats.PrimFloat Floats.SpecFloat Floats.FloatOps.
From Stdlib Require Import Floats.FloatAxioms.
From stdpp Require Import gmap strings list fin_maps.

Set Warnings "-inexact-float,-register-all".
Local Open Scope string_scope.
Local Open Scope Z_scope.

(* ===================================================================== *)
(** ** The Python run time used by the application *)
(* ===================================================================== *)

Module Py.

(** *** Values *)

(** What [json.loads] produces: [None], [bool], [int], [float] (with the
    [NaN] and [Infinity] tokens Python accepts), [str], [list] and [dict]. *)
Inductive json : Type :=
| JNull
| JBool (b : bool)
| JInt (z : Z)
| JFloat (f : float)
| JStr (s : string)
| JArr (l : list json)
| JObj (m : gmap string json).

(** The numbers the encoder stores in its working dictionary. *)
Inductive pynum : Type :=
| PInt (z : Z)
| PFloat (f : float).

(** *** Exceptions and fallible computations *)

Inductive pyexc : Type :=
| ValueError (msg : string)
| TypeError (msg : string)
| AttributeError (msg : string)
| OverflowError (msg : string)
| KeyError (key : string)
| OtherError (msg : string).

Inductive result (A : Type) : Type :=
| Ok (a : A)
| Raise (e : pyexc).
Arguments Ok {A} a.
Arguments Raise {A} e.

#[global] Instance result_bind : MBind result := fun A B k r =>
  match r with
  | Ok a => k a
  | Raise e => Raise e
  end.

#[global] Instance result_ret : MRet result := fun A a => Ok a.

(** A [for] loop whose body may raise: the state is threaded through the
    iterations and the first exception ends the loop. *)
Fixpoint for_each {A S : Type} (body : S -> A -> result S) (l : list A) (s : S)
  : result S :=
  match l with
  | [] => Ok s
  | a :: l' =>
      match body s a with
      | Ok s' => for_each body l' s'
      | Raise e => Raise e
      end
  end.

Definition is_ok {A} (r : result A) : bool :=
  match r with Ok _ => true | Raise _ => false end.

(** *** Binary64 conversions *)

(** [float(n)] for an [int]: the nearest binary64 number, ties to even;
    [OverflowError] when that is out of range. *)
Definition Z_to_SF (z : Z) : spec_float := binary_normalize prec emax z 0 false.

Definition int_to_float (z : Z) : result float :=
  match Z_to_SF z with
  | S754_infinity _ => Raise (OverflowError "int too large to convert to float")
  | sf => Ok (SF2Prim sf)
  end.

(** The binary64 number nearest to the positive rational [n / d] (ties to
    even, overflow to infinity, underflow through the subnormals to zero),
    with the sign [neg]. The quotient is taken with at least 55 bits, or at
    the smallest exponent, and rounded once with the remainder's location. *)
Definition ratio_to_SF (neg : bool) (n d : positive) : spec_float :=
  let e := Z.max (Z.pos (digits2_pos n) - Z.pos (digits2_pos d) - 55)
                 emin in
  let num := if 0 <=? e then Z.pos n else Z.pos n * 2 ^ (- e) in
  let den := if 0 <=? e then Z.pos d * 2 ^ e else Z.pos d in
  let q := num / den in
  let r := num mod den in
  let loc := if r =? 0 then loc_Exact else loc_Inexact (Z.compare (2 * r) den) in
  binary_round_aux prec emax neg q e loc.

Definition signed_zero (neg : bool) : float :=
  if neg then (-0)%float else 0%float.

Definition signed_infinity (neg : bool) : float :=
  if neg then neg_infinity else infinity.

(** [m * 10 ^ e10] as a binary64 number. A magnitude of at least [10 ^ 310]
    or below [10 ^ -325] is settled on the bit length of [m], so that no
    huge power of ten is computed. *)
Definition decimal_to_float (neg : bool) (m : Z) (e10 : Z) : float :=
  match m with
  | Z.pos p =>
      if 309 <? Z.log2 m * 30102 / 100000 + e10 then signed_infinity neg
      else if (Z.log2 m + 1) * 30103 / 100000 + 1 + e10 <=? -325
           then signed_zero neg
      else if 0 <=? e10
           then SF2Prim (ratio_to_SF neg (p * Z.to_pos (10 ^ e10)) 1)
           else SF2Prim (ratio_to_SF neg p (Z.to_pos (10 ^ (- e10))))
  | _ => signed_zero neg
  end.

(** *** Text

    A [str] is modelled by the bytes of its UTF-8 encoding, a lone
    surrogate by the three bytes the same scheme gives it. [float()] and
    [repr] read the text character by character: they work on the code
    points the bytes decode to, with the character tables of Unicode 14.0,
    which CPython 3.11 carries. *)

Definition char_code (c : ascii) : N := N_of_ascii c.

Definition is_digit (c : ascii) : bool :=
  ((48 <=? char_code c) && (char_code c <=? 57))%N.

Definition digit_value (c : ascii) : Z := Z.of_N (char_code c) - 48.

(** The white space [float()] strips: tab, line feed, vertical tab, form
    feed, carriage return and space. *)
Definition is_space (c : ascii) : bool :=
  (((9 <=? char_code c) && (char_code c <=? 13)) || (char_code c =? 32))%N.

Definition lower (c : ascii) : ascii :=
  if ((65 <=? char_code c) && (char_code c <=? 90))%N
  then ascii_of_N (char_code c + 32) else c.

Definition is_char (n : N) (c : ascii) : bool := (char_code c =? n)%N.

(** **** Code points *)

(** The six low bits of a continuation byte. *)
Definition continuation (c : ascii) : option N :=
  if ((128 <=? char_code c) && (char_code c <? 192))%N
  then Some (char_code c - 128)%N else None.

Definition continuation_at (i : nat) (s : list ascii) : option N :=
  match nth_error s i with
  | Some c => continuation c
  | None => None
  end.

(** The code point a sequence of two, three or four bytes encodes, and the
    length of the sequence: [n] is the first byte and [s] what follows it.
    Sequences longer than the code point needs, or beyond U+10FFFF, are not
    well formed. *)
Definition decode_sequence (n : N) (s : list ascii) : option (N * nat) :=
  (if (194 <=? n) && (n <=? 223) then
     match continuation_at 0 s with
     | Some x1 => Some ((n - 192) * 64 + x1, 2%nat)
     | None => None
     end
   else if (224 <=? n) && (n <=? 239) then
     match continuation_at 0 s, continuation_at 1 s with
     | Some x1, Some x2 =>
         let cp := ((n - 224) * 64 + x1) * 64 + x2 in
         if 2048 <=? cp then Some (cp, 3%nat) else None
     | _, _ => None
     end
   else if (240 <=? n) && (n <=? 244) then
     match continuation_at 0 s, continuation_at 1 s, continuation_at 2 s with
     | Some x1, Some x2, Some x3 =>
         let cp := (((n - 240) * 64 + x1) * 64 + x2) * 64 + x3 in
         if (65536 <=? cp) && (cp <=? 1114111) then Some (cp, 4%nat) else None
     | _, _, _ => None
     end
   else None)%N.

(** The code point at the head of [s] and the number of bytes it takes. A
    byte that starts no well-formed sequence encodes no text; it is read
    as the surrogate U+DC00 + byte, a character that is neither a digit
    nor white space nor printable. *)
Definition decode_head (s : list ascii) : N * nat :=
  match s with
  | [] => (0%N, 0%nat)
  | b :: s1 =>
      if (char_code b <? 128)%N then (char_code b, 1%nat)
      else
        match decode_sequence (char_code b) s1 with
        | Some r => r
        | None => ((56320 + char_code b)%N, 1%nat)
        end
  end.

(** The code points of [s], each with the bytes it was read from; [skip]
    bytes at the head of [s] belong to the code point before. *)
Fixpoint code_points_from (skip : nat) (s : list ascii) : list (N * list ascii) :=
  match s with
  | [] => []
  | _ :: s' =>
      match skip with
      | S k => code_points_from k s'
      | O =>
          let '(cp, len) := decode_head s in
          (cp, firstn len s) :: code_points_from (len - 1) s'
      end
  end.

Definition code_points (s : string) : list (N * list ascii) :=
  code_points_from 0 (list_ascii_of_string s).

(** **** Character tables *)

(** The white space beyond ASCII: U+0085, U+00A0, U+1680, U+2000 to
    U+200A, U+2028, U+2029, U+202F, U+205F and U+3000. *)
Definition unicode_space (cp : N) : bool :=
  (existsb (N.eqb cp) [133; 160; 5760; 8232; 8233; 8239; 8287; 12288]
   || ((8192 <=? cp) && (cp <=? 8202)))%N.

(** The code points beyond ASCII that are the digit zero of a script; the
    nine that follow each are its digits one to nine. *)
Definition DECIMAL_ZEROS : list N :=
  [
    1632; 1776; 1984; 2406; 2534; 2662; 2790; 2918; 3046; 3174; 3302; 3430;
    3558; 3664; 3792; 3872; 4160; 4240; 6112; 6160; 6470; 6608; 6784; 6800;
    6992; 7088; 7232; 7248; 42528; 43216; 43264; 43472; 43504; 43600; 44016;
    65296; 66720; 68912; 69734; 69872; 69942; 70096; 70384; 70736; 70864;
    71248; 71360; 71472; 71904; 72016; 72784; 73040; 73120; 92768; 92864;
    93008; 120782; 120792; 120802; 120812; 120822; 123200; 123632; 125264;
    130032
  ]%N.

Definition decimal_digit (cp : N) : option N :=
  match find (fun z => (z <=? cp) && (cp <? z + 10))%N DECIMAL_ZEROS with
  | Some z => Some (cp - z)%N
  | None => None
  end.

(** The ranges of code points from U+0080 on that [str.isprintable] turns
    down: controls, formats, surrogates, private use, unassigned, and the
    separators. *)
Definition NON_PRINTABLE : list (N * N) :=
  [
    (128, 160); (173, 173); (888, 889); (896, 899); (907, 907); (909, 909);
    (930, 930); (1328, 1328); (1367, 1368); (1419, 1420); (1424, 1424);
    (1480, 1487); (1515, 1518); (1525, 1541); (1564, 1564); (1757, 1757);
    (1806, 1807); (1867, 1868); (1970, 1983); (2043, 2044); (2094, 2095);
    (2111, 2111); (2140, 2141); (2143, 2143); (2155, 2159); (2191, 2199);
    (2274, 2274); (2436, 2436); (2445, 2446); (2449, 2450); (2473, 2473);
    (2481, 2481); (2483, 2485); (2490, 2491); (2501, 2502); (2505, 2506);
    (2511, 2518); (2520, 2523); (2526, 2526); (2532, 2533); (2559, 2560);
    (2564, 2564); (2571, 2574); (2577, 2578); (2601, 2601); (2609, 2609);
    (2612, 2612); (2615, 2615); (2618, 2619); (2621, 2621); (2627, 2630);
    (2633, 2634); (2638, 2640); (2642, 2648); (2653, 2653); (2655, 2661);
    (2679, 2688); (2692, 2692); (2702, 2702); (2706, 2706); (2729, 2729);
    (2737, 2737); (2740, 2740); (2746, 2747); (2758, 2758); (2762, 2762);
    (2766, 2767); (2769, 2783); (2788, 2789); (2802, 2808); (2816, 2816);
    (2820, 2820); (2829, 2830); (2833, 2834); (2857, 2857); (2865, 2865);
    (2868, 2868); (2874, 2875); (2885, 2886); (2889, 2890); (2894, 2900);
    (2904, 2907); (2910, 2910); (2916, 2917); (2936, 2945); (2948, 2948);
    (2955, 2957); (2961, 2961); (2966, 2968); (2971, 2971); (2973, 2973);
    (2976, 2978); (2981, 2983); (2987, 2989); (3002, 3005); (3011, 3013);
    (3017, 3017); (3022, 3023); (3025, 3030); (3032, 3045); (3067, 3071);
    (3085, 3085); (3089, 3089); (3113, 3113); (3130, 3131); (3141, 3141);
    (3145, 3145); (3150, 3156); (3159, 3159); (3163, 3164); (3166, 3167);
    (3172, 3173); (3184, 3190); (3213, 3213); (3217, 3217); (3241, 3241);
    (3252, 3252); (3258, 3259); (3269, 3269); (3273, 3273); (3278, 3284);
    (3287, 3292); (3295, 3295); (3300, 3301); (3312, 3312); (3315, 3327);
    (3341, 3341); (3345, 3345); (3397, 3397); (3401, 3401); (3408, 3411);
    (3428, 3429); (3456, 3456); (3460, 3460); (3479, 3481); (3506, 3506);
    (3516, 3516); (3518, 3519); (3527, 3529); (3531, 3534); (3541, 3541);
    (3543, 3543); (3552, 3557); (3568, 3569); (3573, 3584); (3643, 3646);
    (3676, 3712); (3715, 3715); (3717, 3717); (3723, 3723); (3748, 3748);
    (3750, 3750); (3774, 3775); (3781, 3781); (3783, 3783); (3790, 3791);
    (3802, 3803); (3808, 3839); (3912, 3912); (3949, 3952); (3992, 3992);
    (4029, 4029); (4045, 4045); (4059, 4095); (4294, 4294); (4296, 4300);
    (4302, 4303); (4681, 4681); (4686, 4687); (4695, 4695); (4697, 4697);
    (4702, 4703); (4745, 4745); (4750, 4751); (4785, 4785); (4790, 4791);
    (4799, 4799); (4801, 4801); (4806, 4807); (4823, 4823); (4881, 4881);
    (4886, 4887); (4955, 4956); (4989, 4991); (5018, 5023); (5110, 5111);
    (5118, 5119); (5760, 5760); (5789, 5791); (5881, 5887); (5910, 5918);
    (5943, 5951); (5972, 5983); (5997, 5997); (6001, 6001); (6004, 6015);
    (6110, 6111); (6122, 6127); (6138, 6143); (6158, 6158); (6170, 6175);
    (6265, 6271); (6315, 6319); (6390, 6399); (6431, 6431); (6444, 6447);
    (6460, 6463); (6465, 6467); (6510, 6511); (6517, 6527); (6572, 6575);
    (6602, 6607); (6619, 6621); (6684, 6685); (6751, 6751); (6781, 6782);
    (6794, 6799); (6810, 6815); (6830, 6831); (6863, 6911); (6989, 6991);
    (7039, 7039); (7156, 7163); (7224, 7226); (7242, 7244); (7305, 7311);
    (7355, 7356); (7368, 7375); (7419, 7423); (7958, 7959); (7966, 7967);
    (8006, 8007); (8014, 8015); (8024, 8024); (8026, 8026); (8028, 8028);
    (8030, 8030); (8062, 8063); (8117, 8117); (8133, 8133); (8148, 8149);
    (8156, 8156); (8176, 8177); (8181, 8181); (8191, 8207); (8232, 8239);
    (8287, 8303); (8306, 8307); (8335, 8335); (8349, 8351); (8385, 8399);
    (8433, 8447); (8588, 8591); (9255, 9279); (9291, 9311); (11124, 11125);
    (11158, 11158); (11508, 11512); (11558, 11558); (11560, 11564); (11566,
    11567); (11624, 11630); (11633, 11646); (11671, 11679); (11687, 11687);
    (11695, 11695); (11703, 11703); (11711, 11711); (11719, 11719); (11727,
    11727); (11735, 11735); (11743, 11743); (11870, 11903); (11930, 11930);
    (12020, 12031); (12246, 12271); (12284, 12288); (12352, 12352); (12439,
    12440); (12544, 12548); (12592, 12592); (12687, 12687); (12772, 12783);
    (12831, 12831); (42125, 42127); (42183, 42191); (42540, 42559); (42744,
    42751); (42955, 42959); (42962, 42962); (42964, 42964); (42970, 42993);
    (43053, 43055); (43066, 43071); (43128, 43135); (43206, 43213); (43226,
    43231); (43348, 43358); (43389, 43391); (43470, 43470); (43482, 43485);
    (43519, 43519); (43575, 43583); (43598, 43599); (43610, 43611); (43715,
    43738); (43767, 43776); (43783, 43784); (43791, 43792); (43799, 43807);
    (43815, 43815); (43823, 43823); (43884, 43887); (44014, 44015); (44026,
    44031); (55204, 55215); (55239, 55242); (55292, 63743); (64110, 64111);
    (64218, 64255); (64263, 64274); (64280, 64284); (64311, 64311); (64317,
    64317); (64319, 64319); (64322, 64322); (64325, 64325); (64451, 64466);
    (64912, 64913); (64968, 64974); (64976, 65007); (65050, 65055); (65107,
    65107); (65127, 65127); (65132, 65135); (65141, 65141); (65277, 65280);
    (65471, 65473); (65480, 65481); (65488, 65489); (65496, 65497); (65501,
    65503); (65511, 65511); (65519, 65531); (65534, 65535); (65548, 65548);
    (65575, 65575); (65595, 65595); (65598, 65598); (65614, 65615); (65630,
    65663); (65787, 65791); (65795, 65798); (65844, 65846); (65935, 65935);
    (65949, 65951); (65953, 65999); (66046, 66175); (66205, 66207); (66257,
    66271); (66300, 66303); (66340, 66348); (66379, 66383); (66427, 66431);
    (66462, 66462); (66500, 66503); (66518, 66559); (66718, 66719); (66730,
    66735); (66772, 66775); (66812, 66815); (66856, 66863); (66916, 66926);
    (66939, 66939); (66955, 66955); (66963, 66963); (66966, 66966); (66978,
    66978); (66994, 66994); (67002, 67002); (67005, 67071); (67383, 67391);
    (67414, 67423); (67432, 67455); (67462, 67462); (67505, 67505); (67515,
    67583); (67590, 67591); (67593, 67593); (67638, 67638); (67641, 67643);
    (67645, 67646); (67670, 67670); (67743, 67750); (67760, 67807); (67827,
    67827); (67830, 67834); (67868, 67870); (67898, 67902); (67904, 67967);
    (68024, 68027); (68048, 68049); (68100, 68100); (68103, 68107); (68116,
    68116); (68120, 68120); (68150, 68151); (68155, 68158); (68169, 68175);
    (68185, 68191); (68256, 68287); (68327, 68330); (68343, 68351); (68406,
    68408); (68438, 68439); (68467, 68471); (68498, 68504); (68509, 68520);
    (68528, 68607); (68681, 68735); (68787, 68799); (68851, 68857); (68904,
    68911); (68922, 69215); (69247, 69247); (69290, 69290); (69294, 69295);
    (69298, 69375); (69416, 69423); (69466, 69487); (69514, 69551); (69580,
    69599); (69623, 69631); (69710, 69713); (69750, 69758); (69821, 69821);
    (69827, 69839); (69865, 69871); (69882, 69887); (69941, 69941); (69960,
    69967); (70007, 70015); (70112, 70112); (70133, 70143); (70162, 70162);
    (70207, 70271); (70279, 70279); (70281, 70281); (70286, 70286); (70302,
    70302); (70314, 70319); (70379, 70383); (70394, 70399); (70404, 70404);
    (70413, 70414); (70417, 70418); (70441, 70441); (70449, 70449); (70452,
    70452); (70458, 70458); (70469, 70470); (70473, 70474); (70478, 70479);
    (70481, 70486); (70488, 70492); (70500, 70501); (70509, 70511); (70517,
    70655); (70748, 70748); (70754, 70783); (70856, 70863); (70874, 71039);
    (71094, 71095); (71134, 71167); (71237, 71247); (71258, 71263); (71277,
    71295); (71354, 71359); (71370, 71423); (71451, 71452); (71468, 71471);
    (71495, 71679); (71740, 71839); (71923, 71934); (71943, 71944); (71946,
    71947); (71956, 71956); (71959, 71959); (71990, 71990); (71993, 71994);
    (72007, 72015); (72026, 72095); (72104, 72105); (72152, 72153); (72165,
    72191); (72264, 72271); (72355, 72367); (72441, 72703); (72713, 72713);
    (72759, 72759); (72774, 72783); (72813, 72815); (72848, 72849); (72872,
    72872); (72887, 72959); (72967, 72967); (72970, 72970); (73015, 73017);
    (73019, 73019); (73022, 73022); (73032, 73039); (73050, 73055); (73062,
    73062); (73065, 73065); (73103, 73103); (73106, 73106); (73113, 73119);
    (73130, 73439); (73465, 73647); (73649, 73663); (73714, 73726); (74650,
    74751); (74863, 74863); (74869, 74879); (75076, 77711); (77811, 77823);
    (78895, 82943); (83527, 92159); (92729, 92735); (92767, 92767); (92778,
    92781); (92863, 92863); (92874, 92879); (92910, 92911); (92918, 92927);
    (92998, 93007); (93018, 93018); (93026, 93026); (93048, 93052); (93072,
    93759); (93851, 93951); (94027, 94030); (94088, 94094); (94112, 94175);
    (94181, 94191); (94194, 94207); (100344, 100351); (101590, 101631);
    (101641, 110575); (110580, 110580); (110588, 110588); (110591, 110591);
    (110883, 110927); (110931, 110947); (110952, 110959); (111356, 113663);
    (113771, 113775); (113789, 113791); (113801, 113807); (113818, 113819);
    (113824, 118527); (118574, 118575); (118599, 118607); (118724, 118783);
    (119030, 119039); (119079, 119080); (119155, 119162); (119275, 119295);
    (119366, 119519); (119540, 119551); (119639, 119647); (119673, 119807);
    (119893, 119893); (119965, 119965); (119968, 119969); (119971, 119972);
    (119975, 119976); (119981, 119981); (119994, 119994); (119996, 119996);
    (120004, 120004); (120070, 120070); (120075, 120076); (120085, 120085);
    (120093, 120093); (120122, 120122); (120127, 120127); (120133, 120133);
    (120135, 120137); (120145, 120145); (120486, 120487); (120780, 120781);
    (121484, 121498); (121504, 121504); (121520, 122623); (122655, 122879);
    (122887, 122887); (122905, 122906); (122914, 122914); (122917, 122917);
    (122923, 123135); (123181, 123183); (123198, 123199); (123210, 123213);
    (123216, 123535); (123567, 123583); (123642, 123646); (123648, 124895);
    (124903, 124903); (124908, 124908); (124911, 124911); (124927, 124927);
    (125125, 125126); (125143, 125183); (125260, 125263); (125274, 125277);
    (125280, 126064); (126133, 126208); (126270, 126463); (126468, 126468);
    (126496, 126496); (126499, 126499); (126501, 126502); (126504, 126504);
    (126515, 126515); (126520, 126520); (126522, 126522); (126524, 126529);
    (126531, 126534); (126536, 126536); (126538, 126538); (126540, 126540);
    (126544, 126544); (126547, 126547); (126549, 126550); (126552, 126552);
    (126554, 126554); (126556, 126556); (126558, 126558); (126560, 126560);
    (126563, 126563); (126565, 126566); (126571, 126571); (126579, 126579);
    (126584, 126584); (126589, 126589); (126591, 126591); (126602, 126602);
    (126620, 126624); (126628, 126628); (126634, 126634); (126652, 126703);
    (126706, 126975); (127020, 127023); (127124, 127135); (127151, 127152);
    (127168, 127168); (127184, 127184); (127222, 127231); (127406, 127461);
    (127491, 127503); (127548, 127551); (127561, 127567); (127570, 127583);
    (127590, 127743); (128728, 128732); (128749, 128751); (128765, 128767);
    (128884, 128895); (128985, 128991); (129004, 129007); (129009, 129023);
    (129036, 129039); (129096, 129103); (129114, 129119); (129160, 129167);
    (129198, 129199); (129202, 129279); (129620, 129631); (129646, 129647);
    (129653, 129655); (129661, 129663); (129671, 129679); (129709, 129711);
    (129723, 129727); (129734, 129743); (129754, 129759); (129768, 129775);
    (129783, 129791); (129939, 129939); (129995, 130031); (130042, 131071);
    (173792, 173823); (177977, 177983); (178206, 178207); (183970, 183983);
    (191457, 194559); (195102, 196607); (201547, 917759); (918000, 1114111)
  ]%N.

Definition printable (cp : N) : bool :=
  negb (existsb (fun r => (fst r <=? cp) && (cp <=? snd r))%N NON_PRINTABLE).

(** **** Reading a number *)

(** What [float()] makes of the text before it reads it: a character below
    U+007F stays, white space of any script becomes a space, a decimal
    digit of any script becomes the ASCII digit; any other character
    cannot be part of a number. *)
Fixpoint to_ascii_number (cps : list (N * list ascii)) : option (list ascii) :=
  match cps with
  | [] => Some []
  | (cp, _) :: rest =>
      if (cp <? 127)%N then cons (ascii_of_N cp) <$> to_ascii_number rest
      else if unicode_space cp then cons (ascii_of_N 32) <$> to_ascii_number rest
      else
        match decimal_digit cp with
        | Some d => cons (ascii_of_N (48 + d)) <$> to_ascii_number rest
        | None => None
        end
  end.

(** The leading digits of [s]: their value on top of [acc], how many there
    are on top of [n], and what follows them. *)
Fixpoint take_digits (s : list ascii) (acc : Z) (n : Z) : Z * Z * list ascii :=
  match s with
  | c :: s' =>
      if is_digit c then take_digits s' (10 * acc + digit_value c) (n + 1)
      else (acc, n, s)
  | [] => (acc, n, s)
  end.

Definition take_sign (s : list ascii) : bool * list ascii :=
  match s with
  | c :: s' =>
      if is_char 45 c then (true, s')
      else if is_char 43 c then (false, s')
      else (false, s)
  | [] => (false, s)
  end.

(** Underscores may stand between two digits only; they are dropped. *)
Fixpoint strip_underscores (prev : ascii) (s : list ascii) : option (list ascii) :=
  match s with
  | [] => if is_char 95 prev then None else Some []
  | c :: s' =>
      if is_char 95 c then
        if is_digit prev then strip_underscores c s' else None
      else if is_char 95 prev && negb (is_digit c) then None
      else cons c <$> strip_underscores c s'
  end.

Fixpoint drop_spaces (s : list ascii) : list ascii :=
  match s with
  | c :: s' => if is_space c then drop_spaces s' else s
  | [] => []
  end.

Definition strip (s : list ascii) : list ascii :=
  rev (drop_spaces (rev (drop_spaces s))).

Definition parse_inf_or_nan (neg : bool) (s : list ascii) : option float :=
  let t := string_of_list_ascii (map lower s) in
  if String.eqb t "inf" || String.eqb t "infinity" then Some (signed_infinity neg)
  else if String.eqb t "nan" then Some nan
  else None.

(** An exponent part, when [s] starts with one: [e] or [E], a sign if any,
    and at least one digit. Otherwise nothing is read. *)
Definition parse_exponent (s : list ascii) : Z * list ascii :=
  match s with
  | c :: s1 =>
      if is_char 101 c || is_char 69 c then
        let '(eneg, s2) := take_sign s1 in
        let '(ev, en, s3) := take_digits s2 0 0 in
        if en =? 0 then (0, s) else (if eneg then - ev else ev, s3)
      else (0, s)
  | [] => (0, s)
  end.

(** Digits, a point and more digits if any (one digit at least on either
    side), an exponent part if any, and nothing after. *)
Definition parse_decimal (neg : bool) (s : list ascii) : option float :=
  let '(ip, ni, s1) := take_digits s 0 0 in
  let '(m, nf, s2) :=
    match s1 with
    | c :: s1' => if is_char 46 c then take_digits s1' ip 0 else (ip, 0, s1)
    | [] => (ip, 0, s1)
    end in
  if ni + nf =? 0 then None
  else
    let '(e, s3) := parse_exponent s2 in
    match s3 with
    | [] => Some (decimal_to_float neg m (e - nf))
    | _ :: _ => None
    end.

(** [float(s)] for a [str], [None] where Python raises [ValueError]. *)
Definition float_of_string (s : string) : option float :=
  match to_ascii_number (code_points s) with
  | None => None
  | Some l =>
      match strip_underscores Ascii.zero l with
      | None => None
      | Some t =>
          let '(neg, body) := take_sign (strip t) in
          match parse_inf_or_nan neg body with
          | Some f => Some f
          | None => parse_decimal neg body
          end
      end
  end.

Definition hex_digit (n : N) : ascii :=
  if (n <? 10)%N then ascii_of_N (48 + n) else ascii_of_N (87 + n).

(** The [width] lowest hexadecimal digits of [n]. *)
Fixpoint hex_digits (width : nat) (n : N) : list ascii :=
  match width with
  | O => []
  | S w => (hex_digits w (n / 16) ++ [hex_digit (n mod 16)])%list
  end.

(** A character below U+0080 in [repr]. *)
Definition repr_char (quote c : ascii) : list ascii :=
  let n := char_code c in
  let bs := ascii_of_N 92 in
  if Ascii.eqb c quote || is_char 92 c then [bs; c]
  else if is_char 9 c then [bs; ascii_of_N 116]
  else if is_char 10 c then [bs; ascii_of_N 110]
  else if is_char 13 c then [bs; ascii_of_N 114]
  else if ((n <? 32) || (n =? 127))%N
       then [bs; ascii_of_N 120; hex_digit (n / 16); hex_digit (n mod 16)]
  else [c].

(** A code point in [repr]: a printable one stands as it is, another one
    is escaped with two, four or eight hexadecimal digits. *)
Definition repr_code_point (quote : ascii) (cpb : N * list ascii) : list ascii :=
  let '(cp, bytes) := cpb in
  let bs := ascii_of_N 92 in
  if (cp <? 128)%N then repr_char quote (ascii_of_N cp)
  else if printable cp then bytes
  else if (cp <? 256)%N then bs :: ascii_of_N 120 :: hex_digits 2 cp
  else if (cp <? 65536)%N then bs :: ascii_of_N 117 :: hex_digits 4 cp
  else bs :: ascii_of_N 85 :: hex_digits 8 cp.

(** [repr(s)] for a [str]: single quotes, unless the text has a single
    quote and no double quote. *)
Definition py_repr (s : string) : string :=
  let l := list_ascii_of_string s in
  let quote :=
    if existsb (is_char 39) l && negb (existsb (is_char 34) l)
    then ascii_of_N 34 else ascii_of_N 39 in
  string_of_list_ascii
    (quote :: flat_map (repr_code_point quote) (code_points s) ++ [quote]).

(** *** Built-in operations on values *)

Definition type_name (v : json) : string :=
  match v with
  | JNull => "NoneType"
  | JBool _ => "bool"
  | JInt _ => "int"
  | JFloat _ => "float"
  | JStr _ => "str"
  | JArr _ => "list"
  | JObj _ => "dict"
  end.

(** [str(e)] *)
Definition str_exc (e : pyexc) : string :=
  match e with
  | ValueError msg | TypeError msg | AttributeError msg
  | OverflowError msg | OtherError msg => msg
  | KeyError key => py_repr key
  end.

(** [float(v)] *)
Definition py_float (v : json) : result float :=
  match v with
  | JBool b => Ok (if b then 1%float else 0%float)
  | JInt z => int_to_float z
  | JFloat f => Ok f
  | JStr s =>
      match float_of_string s with
      | Some f => Ok f
      | None => Raise (ValueError ("could not convert string to float: " +:+ py_repr s))
      end
  | JNull | JArr _ | JObj _ =>
      Raise (TypeError ("float() argument must be a string or a real number, not '"
                        +:+ type_name v +:+ "'"))
  end.

(** [v == s] for a string literal [s] *)
Definition eq_str (v : json) (s : string) : bool :=
  match v with
  | JStr t => String.eqb t s
  | _ => false
  end.

(** [v == n] for an integer or boolean literal of value [n], taken small
    enough to be a binary64 number: [True] and [1] are the same number, and
    a [float] equals them when it is [1.0]. *)
Definition eq_int (v : json) (n : Z) : bool :=
  match v with
  | JBool b => Z.b2z b =? n
  | JInt z => z =? n
  | JFloat f => PrimFloat.eqb f (SF2Prim (Z_to_SF n))
  | _ => false
  end.

(** The literals the application compares request values with: the keys of
    its dictionaries and the members of its token list. *)
Inductive literal : Type :=
| LStr (s : string)
| LBool (b : bool)
| LInt (n : Z).

#[global] Instance literal_eq_dec : EqDecision literal.
Proof. solve_decision. Defined.

(** [v == l] *)
Definition eq_literal (v : json) (l : literal) : bool :=
  match l with
  | LStr s => eq_str v s
  | LBool b => eq_int v (Z.b2z b)
  | LInt n => eq_int v n
  end.

(** [v in [l1, l2, ...]] *)
Definition in_literals (v : json) (ls : list literal) : bool :=
  existsb (eq_literal v) ls.

Definition hashable (v : json) : bool :=
  match v with
  | JArr _ | JObj _ => false
  | _ => true
  end.

(** The value a dictionary literal holds for [v], if any: the entry whose
    key equals [v]. *)
Definition dict_find (mapping : list (literal * Z)) (v : json) : option Z :=
  snd <$> find (fun kv => eq_literal v (fst kv)) mapping.

(** [mapping.get(v, d)]: hashing [v] comes first, and fails on a [list]
    or a [dict]. *)
Definition dict_get (mapping : list (literal * Z)) (v : json) (d : Z) : result Z :=
  if hashable v then Ok (default d (dict_find mapping v))
  else Raise (TypeError ("unhashable type: '" +:+ type_name v +:+ "'")).

Definition is_substring (k s : string) : bool :=
  match String.index 0 k s with
  | Some _ => true
  | None => false
  end.

(** [k in data] *)
Definition py_contains (k : string) (data : json) : result bool :=
  match data with
  | JObj m => Ok (bool_decide (is_Some (m !! k)))
  | JArr l => Ok (existsb (fun v => eq_str v k) l)
  | JStr s => Ok (is_substring k s)
  | _ => Raise (TypeError ("argument of type '" +:+ type_name data
                           +:+ "' is not iterable"))
  end.

(** [data[k]] *)
Definition py_getitem (data : json) (k : string) : result json :=
  match data with
  | JObj m =>
      match m !! k with
      | Some v => Ok v
      | None => Raise (KeyError k)
      end
  | JStr _ => Raise (TypeError "string indices must be integers, not 'str'")
  | JArr _ => Raise (TypeError "list indices must be integers or slices, not str")
  | _ => Raise (TypeError ("'" +:+ type_name data +:+ "' object is not subscriptable"))
  end.

(** [data.get(k, d)] *)
Definition py_get (data : json) (k : string) (d : json) : result json :=
  match data with
  | JObj m => Ok (default d (m !! k))
  | _ => Raise (AttributeError ("'" +:+ type_name data
                                +:+ "' object has no attribute 'get'"))
  end.

(** [round(x, 2)]: the hundredth nearest to the exact value of [x], ties to
    the even one, read back as a binary64 number. *)
Definition py_round2 (x : float) : float :=
  match Prim2SF x with
  | S754_finite s m e =>
      let num := if 0 <=? e then Z.pos m * 2 ^ e * 100 else Z.pos m * 100 in
      let den := if 0 <=? e then 1 else 2 ^ (- e) in
      let q := num / den in
      let h := match Z.compare (2 * (num mod den)) den with
               | Lt => q
               | Eq => if Z.even q then q else q + 1
               | Gt => q + 1
               end in
      decimal_to_float s h (-2)
  | _ => x
  end.

(** The [float] an [int] or a [float] stands for in arithmetic with a
    [float]. *)
Definition pynum_float (x : pynum) : result float :=
  match x with
  | PInt z => int_to_float z
  | PFloat f => Ok f
  end.

(** The conversion [numpy.array] applies to a list that mixes [int] and
    [float]: every element becomes a binary64 number. *)
Definition np_float64 (x : pynum) : float :=
  match x with
  | PInt z => SF2Prim (Z_to_SF z)
  | PFloat f => f
  end.

End Py.

Import Py.

(* ===================================================================== *)
(** ** The application's tables *)
(* ===================================================================== *)

Definition CATEGORICAL_MAPPINGS : list (string * list (literal * Z)) :=
  [ ("home_country", [(LStr "CA", 0); (LStr "UK", 1); (LStr "US", 2)]);
    ("source_currency", [(LStr "CAD", 0); (LStr "GBP", 1); (LStr "USD", 2)]);
    ("dest_currency",
      [(LStr "CAD", 0); (LStr "CNY", 1); (LStr "EUR", 2); (LStr "GBP", 3);
       (LStr "INR", 4); (LStr "MXN", 5); (LStr "NGN", 6); (LStr "PHP", 7);
       (LStr "USD", 8)]);
    ("channel", [(LStr "ATM", 0); (LStr "MOBILE", 1); (LStr "WEB", 2)]);
    ("ip_country", [(LStr "CA", 0); (LStr "UK", 1); (LStr "US", 2)]);
    ("kyc_tier", [(LStr "ENHANCED", 0); (LStr "LOW", 1); (LStr "STANDARD", 2)]);
    ("new_device", [(LBool false, 0); (LBool true, 1)]);
    ("days_only",
      [(LStr "Friday", 0); (LStr "Monday", 1); (LStr "Saturday", 2);
       (LStr "Sunday", 3); (LStr "Thursday", 4); (LStr "Tuesday", 5);
       (LStr "Wednesday", 6)]);
    ("period_of_the_day",
      [(LStr "Day", 0); (LStr "Evening", 1); (LStr "Late Night", 2);
       (LStr "Night", 3)]);
    ("fee_bracket", [(LStr "high risk", 0); (LStr "no risk", 1)]);
    ("ip_risk_score_bracket", [(LStr "high risk", 0); (LStr "no risk", 1)]);
    ("device_trust_bucket", [(LStr "high risk", 0); (LStr "no risk", 1)]) ].

Definition FEATURE_ORDER : list string :=
  [ "home_country"; "source_currency"; "dest_currency"; "channel";
    "amount_src"; "amount_usd"; "fee"; "exchange_rate_src_to_dest";
    "new_device"; "ip_country"; "location_mismatch"; "ip_risk_score";
    "kyc_tier"; "account_age_days"; "device_trust_score";
    "chargeback_history_count"; "risk_score_internal"; "txn_velocity_1h";
    "txn_velocity_24h"; "corridor_risk"; "days_only";
    "period_of_the_day"; "fee_bracket"; "ip_risk_score_bracket";
    "device_trust_bucket" ].

Record robust_params := { median : float; iqr : float }.
Record standard_params := { mean : float; std : float }.

Definition ROBUST_SCALE_PARAMS : list (string * robust_params) :=
  [ ("amount_src", {| median := 200.0; iqr := 300.0 |});
    ("amount_usd", {| median := 180.0; iqr := 280.0 |});
    ("fee", {| median := 4.0; iqr := 5.0 |});
    ("exchange_rate_src_to_dest", {| median := 1.0; iqr := 10.0 |});
    ("chargeback_history_count", {| median := 0.0; iqr := 1.0 |}) ].

Definition STANDARD_SCALE_PARAMS : list (string * standard_params) :=
  [ ("ip_risk_score", {| mean := 0.5; std := 0.25 |});
    ("account_age_days", {| mean := 500.0; std := 300.0 |});
    ("device_trust_score", {| mean := 0.65; std := 0.25 |}) ].

Definition numerical_features : list string :=
  [ "amount_src"; "amount_usd"; "fee"; "exchange_rate_src_to_dest";
    "ip_risk_score"; "account_age_days"; "device_trust_score";
    "chargeback_history_count"; "risk_score_internal";
    "txn_velocity_1h"; "txn_velocity_24h"; "corridor_risk" ].

(* ===================================================================== *)
(** ** [preprocess_input] *)
(* ===================================================================== *)

(** [processed[feature]] *)
Definition processed_item (processed : gmap string pynum) (feature : string)
  : result pynum :=
  match processed !! feature with
  | Some x => Ok x
  | None => Raise (KeyError feature)
  end.

(** What the categorical loop looks up for a field: the request's value,
    except for [new_device], where it is
    [value == 'true' or value == True]. *)
Definition lookup_value (feature : string) (value : json) : json :=
  if String.eqb feature "new_device"
  then JBool (eq_str value "true" || eq_int value 1)
  else value.

(** The body of the loop over [CATEGORICAL_MAPPINGS.items()]. *)
Definition encode_categorical (data : json) (processed : gmap string pynum)
    (item : string * list (literal * Z)) : result (gmap string pynum) :=
  let '(feature, mapping) := item in
  present ← py_contains feature data;
  if present : bool then
    value ← py_getitem data feature;
    code ← dict_get mapping (lookup_value feature value) 0;
    Ok (<[feature := PInt code]> processed)
  else Ok processed.

(** The tokens that switch [location_mismatch] on. *)
Definition TRUE_TOKENS : list literal :=
  [LStr "true"; LBool true; LInt 1; LStr "1"].

Definition encode_location_mismatch (data : json) (processed : gmap string pynum)
  : result (gmap string pynum) :=
  value ← py_get data "location_mismatch" JNull;
  Ok (<["location_mismatch" :=
          PInt (if in_literals value TRUE_TOKENS then 1 else 0)]> processed).

(** The body of the loop over [numerical_features]. *)
Definition encode_numerical (data : json) (processed : gmap string pynum)
    (feature : string) : result (gmap string pynum) :=
  value ← py_get data feature (JInt 0);
  x ← py_float value;
  Ok (<[feature := PFloat x]> processed).

(** The body of the loop over [ROBUST_SCALE_PARAMS.items()]. *)
Definition robust_scale (processed : gmap string pynum)
    (item : string * robust_params) : result (gmap string pynum) :=
  let '(feature, params) := item in
  if negb (PrimFloat.eqb (iqr params) 0) then
    value ← processed_item processed feature;
    x ← pynum_float value;
    Ok (<[feature := PFloat ((x - median params) / iqr params)]> processed)
  else Ok (<[feature := PInt 0]> processed).

(** The body of the loop over [STANDARD_SCALE_PARAMS.items()]. *)
Definition standard_scale (processed : gmap string pynum)
    (item : string * standard_params) : result (gmap string pynum) :=
  let '(feature, params) := item in
  if negb (PrimFloat.eqb (std params) 0) then
    value ← processed_item processed feature;
    x ← pynum_float value;
    Ok (<[feature := PFloat ((x - mean params) / std params)]> processed)
  else Ok (<[feature := PInt 0]> processed).

(** The dictionary [processed] as it stands before the feature array is
    read off it. *)
Definition build_processed (data : json) : result (gmap string pynum) :=
  processed ← for_each (encode_categorical data) CATEGORICAL_MAPPINGS ∅;
  processed ← encode_location_mismatch data processed;
  processed ← for_each (encode_numerical data) numerical_features processed;
  processed ← for_each robust_scale ROBUST_SCALE_PARAMS processed;
  for_each standard_scale STANDARD_SCALE_PARAMS processed.

(** [[processed.get(f, 0) for f in FEATURE_ORDER]] *)
Definition feature_array (processed : gmap string pynum) : list pynum :=
  map (fun f => default (PInt 0) (processed !! f)) FEATURE_ORDER.

(** The result is the single row of [np.array(feature_array).reshape(1, -1)]. *)
Definition preprocess_input (data : json) : result (list float) :=
  processed ← build_processed data;
  Ok (map np_float64 (feature_array processed)).

(* ===================================================================== *)
(** ** [predict] and [get_recommendation] *)
(* ===================================================================== *)

Record recommendation := {
  action : string;
  details : string;
  icon : string
}.

Definition recommendations : list (string * recommendation) :=
  [ ("CRITICAL",
      {| action := "BLOCK TRANSACTION";
         details := "This transaction shows extremely high fraud indicators. Immediate blocking is recommended. Flag for manual review and contact customer for verification.";
         icon := "🚫" |});
    ("HIGH",
      {| action := "HOLD FOR REVIEW";
         details := "Transaction flagged with high fraud probability. Place on hold and require additional verification before processing.";
         icon := "⚠️" |});
    ("MEDIUM",
      {| action := "ENHANCED MONITORING";
         details := "Transaction shows moderate risk signals. Proceed with enhanced monitoring and log for pattern analysis.";
         icon := "👁️" |});
    ("LOW",
      {| action := "PROCEED WITH CAUTION";
         details := "Low fraud indicators detected. Transaction can proceed but include in routine monitoring reports.";
         icon := "✅" |});
    ("MINIMAL",
      {| action := "APPROVE";
         details := "Transaction appears legitimate with minimal risk indicators. Safe to process normally.";
         icon := "✨" |}) ].

Definition recommendation_for (risk_level : string) : option recommendation :=
  snd <$> find (fun kv => String.eqb (fst kv) risk_level) recommendations.

(** [recommendations.get(risk_level, recommendations['MEDIUM'])]; the
    probability is not used. *)
Definition get_recommendation (risk_level : string) (probability : float)
  : recommendation :=
  match recommendation_for risk_level, recommendation_for "MEDIUM" with
  | Some r, _ => r
  | None, Some r => r
  | None, None => {| action := ""; details := ""; icon := "" |}
  end.

(** The [if]/[elif] chain of [predict] that names the risk level and its
    colour. *)
Definition risk_band (fraud_probability : float) : string * string :=
  if PrimFloat.leb 0.7 fraud_probability then ("CRITICAL", "#dc2626")
  else if PrimFloat.leb 0.5 fraud_probability then ("HIGH", "#ea580c")
  else if PrimFloat.leb 0.3 fraud_probability then ("MEDIUM", "#f59e0b")
  else if PrimFloat.leb 0.1 fraud_probability then ("LOW", "#84cc16")
  else ("MINIMAL", "#22c55e").

(** The classifier of the model package, seen through the one call the
    handler makes: [float(model.predict_proba(features)[0][1])]. *)
Record classifier := {
  predict_proba : list float -> result float
}.

(** The unpickled model package: a dictionary whose entries may be
    missing. *)
Record package := {
  model : option classifier;
  best_threshold : option float;
  default_threshold : option float
}.

Record prediction := {
  fraud_probability : float;
  is_fraud_prediction : bool;
  risk_level : string;
  risk_color : string;
  thresholds_best : float;
  thresholds_default : float;
  recommended : recommendation
}.

(** The JSON body of a response. *)
Inductive body : Type :=
| Success (p : prediction)
| Failure (error : string).

(** The statements of [predict] inside its [try]. [request_json] is what
    evaluating [request.json] gives: a value ([JNull] for [None]) or an
    exception of the framework. A plain [return jsonify(...)] has status
    200. *)
Definition predict_try (model_package : option package) (request_json : result json)
  : result (body * Z) :=
  data ← request_json;
  match data with
  | JNull => Ok (Failure "No JSON data received", 400)
  | _ =>
      match model_package with
      | None =>
          Ok (Failure "Model not loaded. Please check if the model file exists.", 500)
      | Some pkg =>
          features ← preprocess_input data;
          clf ← match model pkg with
                | Some c => Ok c
                | None => Raise (KeyError "model")
                end;
          let best := default 0.5%float (best_threshold pkg) in
          let dflt := default 0.5%float (default_threshold pkg) in
          p ← predict_proba clf features;
          let is_fraud_best := PrimFloat.leb best p in
          let '(level, color) := risk_band p in
          Ok (Success {| fraud_probability := py_round2 (p * 100);
                         is_fraud_prediction := is_fraud_best;
                         risk_level := level;
                         risk_color := color;
                         thresholds_best := py_round2 (best * 100);
                         thresholds_default := py_round2 (dflt * 100);
                         recommended := get_recommendation level p |}, 200)
      end
  end.

(** [predict]: any exception becomes a 400 response carrying [str(e)]. *)
Definition predict (model_package : option package) (request_json : result json)
  : body * Z :=
  match predict_try model_package request_json with
  | Ok response => response
  | Raise e => (Failure (str_exc e), 400)
  end.

(* ===================================================================== *)
(** ** [get_options] *)
(* ===================================================================== *)

(** The object [get_options] returns: eight lists of options under their
    names. *)
Definition get_options : list (string * list string) :=
  [ ("home_countries", ["US"; "CA"; "UK"]);
    ("source_currencies", ["USD"; "CAD"; "GBP"]);
    ("dest_currencies",
      ["USD"; "CAD"; "GBP"; "EUR"; "MXN"; "CNY"; "INR"; "PHP"; "NGN"]);
    ("channels", ["ATM"; "WEB"; "MOBILE"]);
    ("ip_countries", ["US"; "CA"; "UK"]);
    ("kyc_tiers", ["STANDARD"; "ENHANCED"; "LOW"]);
    ("days",
      ["Monday"; "Tuesday"; "Wednesday"; "Thursday"; "Friday"; "Saturday";
       "Sunday"]);
    ("periods", ["Day"; "Evening"; "Night"; "Late Night"]) ].

(* ===================================================================== *)
(** ** Vocabulary of the statements *)
(* ===================================================================== *)

(** [data.get(f, 0)] on a dictionary request. *)
Definition raw_number (m : gmap string json) (f : string) : json :=
  default (JInt 0) (m !! f).

(** The integer stored for [location_mismatch]. *)
Definition location_flag (m : gmap string json) : Z :=
  if in_literals (default JNull (m !! "location_mismatch")) TRUE_TOKENS
  then 1 else 0.

(** What a scaling step stores for a feature whose entry is the float [x]. *)
Definition robust_written (prm : robust_params) (x : float) : pynum :=
  if negb (PrimFloat.eqb (iqr prm) 0)
  then PFloat ((x - median prm) / iqr prm) else PInt 0.

Definition standard_written (prm : standard_params) (x : float) : pynum :=
  if negb (PrimFloat.eqb (std prm) 0)
  then PFloat ((x - mean prm) / std prm) else PInt 0.

(** The values that equal [True] or [1] in Python: the boolean, the
    integer and the float. *)
Definition is_one (v : json) : Prop :=
  v = JBool true \/ v = JInt 1
  \/ exists f, v = JFloat f /\ PrimFloat.eqb f 1 = true.

(** The values found in the token list ['true', True, 1, '1']. *)
Definition true_token (v : json) : Prop :=
  v = JStr "true" \/ v = JStr "1" \/ is_one v.

(** Every categorical field present in the request holds a value the
    dictionary lookup accepts. *)
Definition categorical_ok (m : gmap string json) : Prop :=
  forall f mapping v,
    (f, mapping) ∈ CATEGORICAL_MAPPINGS -> m !! f = Some v ->
    hashable (lookup_value f v) = true.

(** Every numerical field present in the request holds a value [float()]
    accepts. *)
Definition numerical_ok (m : gmap string json) : Prop :=
  forall f v, f ∈ numerical_features -> m !! f = Some v ->
    is_ok (py_float v) = true.

(** The numerical features no scaling table names, with their positions
    in [FEATURE_ORDER]. *)
Definition UNSCALED_FEATURES : list (nat * string) :=
  [ (16%nat, "risk_score_internal"); (17%nat, "txn_velocity_1h");
    (18%nat, "txn_velocity_24h"); (19%nat, "corridor_risk") ].

(** The text whose UTF-8 encoding is the bytes [l]: for the characters
    that do not show in a literal. *)
Definition text_of_bytes (l : list Z) : string :=
  string_of_list_ascii (map (fun b => ascii_of_N (Z.to_N b)) l).

(** The value at position [i] of the vector a dictionary request is
    encoded to, if it is encoded. *)
Definition encoded_at (m : gmap string json) (i : nat) : option float :=
  match preprocess_input (JObj m) with
  | Ok vec => vec !! i
  | Raise _ => None
  end.

(** The request field each list of [get_options] offers values for. *)
Definition OPTION_FIELDS : list (string * string) :=
  [ ("home_countries", "home_country");
    ("source_currencies", "source_currency");
    ("dest_currencies", "dest_currency");
    ("channels", "channel");
    ("ip_countries", "ip_country");
    ("kyc_tiers", "kyc_tier");
    ("days", "days_only");
    ("periods", "period_of_the_day") ].

(** The place of a risk level in the order MINIMAL, LOW, MEDIUM, HIGH,
    CRITICAL, from 0 to 4. *)
Definition level_rank (level : string) : nat :=
  if String.eqb level "CRITICAL" then 4
  else if String.eqb level "HIGH" then 3
  else if String.eqb level "MEDIUM" then 2
  else if String.eqb level "LOW" then 1
  else 0.

(** A model package whose classifier answers [p] whatever the features,
    for the examples. *)
Definition constant_classifier (p : float) : classifier :=
  {| predict_proba := fun _ => Ok p |}.

Definition example_package : package :=
  {| model := Some (constant_classifier 0.25);
     best_threshold := Some 0.35%float;
     default_threshold := Some 0.5%float |}.

(* ===================================================================== *)
(** ** Facts about the run time *)
(* ===================================================================== *)

(** Membership, distinctness and the like between concrete field names are
    settled by evaluation. *)
Ltac by_evaluation :=
  match goal with
  | |- ?P =>
      let d := constr:(ltac:(tc_solve) : Decision P) in
      apply (@bool_decide_unpack P d); vm_compute; exact I
  end.

(** The entry at a given position of a concrete list belongs to it. *)
Ltac at_position n := apply (list_elem_of_lookup_2 _ n); reflexivity.

Lemma bind_Ok {A B} (r : result A) (k : A -> result B) (b : B) :
  r ≫= k = Ok b -> exists a, r = Ok a /\ k a = Ok b.
Proof. destruct r as [a|e]; simpl; [eauto | discriminate]. Qed.

Lemma bind_Raise {A B} (r : result A) (k : A -> result B) (e : pyexc) :
  r ≫= k = Raise e -> r = Raise e \/ exists a, r = Ok a /\ k a = Raise e.
Proof. destruct r as [a|e']; simpl; [eauto | intros [= ->]; auto]. Qed.

Lemma for_each_cons {A S} (body : S -> A -> result S) a l s :
  for_each body (a :: l) s = body s a ≫= for_each body l.
Proof. simpl. destruct (body s a); reflexivity. Qed.

(** A value that hashes is looked up without an exception. *)
Lemma dict_get_hashable mapping v d :
  hashable v = true -> dict_get mapping v d = Ok (default d (dict_find mapping v)).
Proof. unfold dict_get. intros ->. reflexivity. Qed.

Lemma dict_get_Raise mapping v d e :
  dict_get mapping v d = Raise e -> hashable v = false.
Proof. unfold dict_get. destruct (hashable v); [discriminate | reflexivity]. Qed.

(* ===================================================================== *)
(** ** The loops of [preprocess_input] on a dictionary request *)
(* ===================================================================== *)

Section Loops.
Variable m : gmap string json.

Lemma encode_categorical_dict p f mapping :
  encode_categorical (JObj m) p (f, mapping) =
    match m !! f with
    | Some v =>
        dict_get mapping (lookup_value f v) 0 ≫= fun code =>
        Ok (<[f := PInt code]> p)
    | None => Ok p
    end.
Proof.
  unfold encode_categorical. simpl.
  destruct (m !! f) as [v|] eqn:E.
  - rewrite bool_decide_eq_true_2 by eauto. reflexivity.
  - rewrite bool_decide_eq_false_2 by (intros [? ?]; discriminate). reflexivity.
Qed.

Lemma categorical_loop_frame l p p' f :
  for_each (encode_categorical (JObj m)) l p = Ok p' ->
  f ∉ l.*1 -> p' !! f = p !! f.
Proof.
  revert p. induction l as [|[g mapping] l IH]; intros p H Hf.
  - injection H as <-. reflexivity.
  - rewrite for_each_cons in H. apply bind_Ok in H as (p1 & H1 & H2).
    rewrite fmap_cons, not_elem_of_cons in Hf. destruct Hf as [Hne Hf].
    rewrite (IH _ H2 Hf). rewrite encode_categorical_dict in H1.
    destruct (m !! g); [| congruence].
    apply bind_Ok in H1 as (code & _ & [= <-]).
    apply lookup_insert_ne. simpl in Hne. congruence.
Qed.

Lemma categorical_loop_absent l p p' f :
  for_each (encode_categorical (JObj m)) l p = Ok p' ->
  m !! f = None -> p' !! f = p !! f.
Proof.
  revert p. induction l as [|[g mapping] l IH]; intros p H Hf.
  - injection H as <-. reflexivity.
  - rewrite for_each_cons in H. apply bind_Ok in H as (p1 & H1 & H2).
    rewrite (IH _ H2 Hf). rewrite encode_categorical_dict in H1.
    destruct (m !! g) eqn:E; [| congruence].
    apply bind_Ok in H1 as (code & _ & [= <-]).
    apply lookup_insert_ne. congruence.
Qed.

Lemma categorical_loop_present l p p' f mapping v :
  for_each (encode_categorical (JObj m)) l p = Ok p' ->
  NoDup l.*1 -> (f, mapping) ∈ l -> m !! f = Some v ->
  exists code, dict_get mapping (lookup_value f v) 0 = Ok code
               /\ p' !! f = Some (PInt code).
Proof.
  revert p. induction l as [|[g mapping'] l IH]; intros p H Hnd Hin Hv.
  - inversion Hin.
  - rewrite for_each_cons in H. apply bind_Ok in H as (p1 & H1 & H2).
    rewrite fmap_cons in Hnd. apply NoDup_cons in Hnd as [Hg Hnd]. simpl in Hg.
    apply elem_of_cons in Hin as [[= <- <-] | Hin].
    + rewrite encode_categorical_dict, Hv in H1.
      apply bind_Ok in H1 as (code & Hc & [= <-]).
      exists code. split; [exact Hc |].
      rewrite (categorical_loop_frame _ _ _ _ H2 Hg). apply lookup_insert_eq.
    + eauto.
Qed.

Lemma categorical_loop_raise l p e :
  for_each (encode_categorical (JObj m)) l p = Raise e ->
  exists f mapping v, (f, mapping) ∈ l /\ m !! f = Some v
    /\ dict_get mapping (lookup_value f v) 0 = Raise e.
Proof.
  revert p. induction l as [|[g mapping] l IH]; intros p H.
  - discriminate.
  - rewrite for_each_cons in H. apply bind_Raise in H as [H | (p1 & _ & H)].
    + rewrite encode_categorical_dict in H. destruct (m !! g) as [v|] eqn:E; [| discriminate].
      apply bind_Raise in H as [H | (c & _ & H)]; [| discriminate].
      exists g, mapping, v. split; [left | auto].
    + destruct (IH _ H) as (f & mp & v & Hin & Hv & Hr).
      exists f, mp, v. split; [right; exact Hin | auto].
Qed.

(** The numerical loop *)

Lemma encode_numerical_dict p f :
  encode_numerical (JObj m) p f =
    py_float (raw_number m f) ≫= fun x => Ok (<[f := PFloat x]> p).
Proof. reflexivity. Qed.

Lemma numerical_loop_frame l p p' f :
  for_each (encode_numerical (JObj m)) l p = Ok p' ->
  f ∉ l -> p' !! f = p !! f.
Proof.
  revert p. induction l as [|g l IH]; intros p H Hf.
  - injection H as <-. reflexivity.
  - rewrite for_each_cons in H. apply bind_Ok in H as (p1 & H1 & H2).
    rewrite not_elem_of_cons in Hf. destruct Hf as [Hne Hf].
    rewrite (IH _ H2 Hf). rewrite encode_numerical_dict in H1.
    apply bind_Ok in H1 as (x & _ & [= <-]).
    apply lookup_insert_ne. congruence.
Qed.

Lemma numerical_loop_value l p p' f :
  for_each (encode_numerical (JObj m)) l p = Ok p' ->
  f ∈ l ->
  exists x, py_float (raw_number m f) = Ok x /\ p' !! f = Some (PFloat x).
Proof.
  revert p. induction l as [|g l IH]; intros p H Hin.
  - inversion Hin.
  - rewrite for_each_cons in H. apply bind_Ok in H as (p1 & H1 & H2).
    destruct (decide (f ∈ l)) as [Hl | Hl]; [eauto |].
    apply elem_of_cons in Hin as [-> | Hin]; [| contradiction].
    rewrite encode_numerical_dict in H1.
    apply bind_Ok in H1 as (x & Hx & [= <-]).
    exists x. split; [exact Hx |].
    rewrite (numerical_loop_frame _ _ _ _ H2 Hl). apply lookup_insert_eq.
Qed.

Lemma numerical_loop_raise l p e :
  for_each (encode_numerical (JObj m)) l p = Raise e ->
  exists f, f ∈ l /\ py_float (raw_number m f) = Raise e.
Proof.
  revert p. induction l as [|g l IH]; intros p H.
  - discriminate.
  - rewrite for_each_cons in H. apply bind_Raise in H as [H | (p1 & _ & H)].
    + rewrite encode_numerical_dict in H.
      apply bind_Raise in H as [H | (c & _ & H)]; [| discriminate].
      exists g. split; [left | exact H].
    + destruct (IH _ H) as (f & Hin & Hr). exists f. split; [right; exact Hin | exact Hr].
Qed.

End Loops.

(** *** The scaling loops *)

Lemma robust_scale_float p f prm x :
  p !! f = Some (PFloat x) ->
  robust_scale p (f, prm) =
    Ok (<[f := if negb (PrimFloat.eqb (iqr prm) 0)
               then PFloat ((x - median prm) / iqr prm) else PInt 0]> p).
Proof.
  intros H. unfold robust_scale, processed_item. rewrite H.
  destruct (negb _); reflexivity.
Qed.

Lemma standard_scale_float p f prm x :
  p !! f = Some (PFloat x) ->
  standard_scale p (f, prm) =
    Ok (<[f := if negb (PrimFloat.eqb (std prm) 0)
               then PFloat ((x - mean prm) / std prm) else PInt 0]> p).
Proof.
  intros H. unfold standard_scale, processed_item. rewrite H.
  destruct (negb _); reflexivity.
Qed.

(** Either scaling step writes the entry of its own feature and no other. *)
Lemma robust_scale_frame p p' f g prm :
  robust_scale p (g, prm) = Ok p' -> f <> g -> p' !! f = p !! f.
Proof.
  unfold robust_scale. intros H Hne. destruct (negb _).
  - apply bind_Ok in H as (v & _ & H). apply bind_Ok in H as (x & _ & [= <-]).
    apply lookup_insert_ne. congruence.
  - injection H as <-. apply lookup_insert_ne. congruence.
Qed.

Lemma standard_scale_frame p p' f g prm :
  standard_scale p (g, prm) = Ok p' -> f <> g -> p' !! f = p !! f.
Proof.
  unfold standard_scale. intros H Hne. destruct (negb _).
  - apply bind_Ok in H as (v & _ & H). apply bind_Ok in H as (x & _ & [= <-]).
    apply lookup_insert_ne. congruence.
  - injection H as <-. apply lookup_insert_ne. congruence.
Qed.

Section ScalingLoop.
(** Both loops have the same shape; the lemmas are stated once, over a
    step that writes only its own feature. *)
Context {P : Type} (step : gmap string pynum -> string * P -> result (gmap string pynum)).
Context (written : P -> float -> pynum).
Hypothesis step_frame : forall p p' f g prm,
  step p (g, prm) = Ok p' -> f <> g -> p' !! f = p !! f.
Hypothesis step_float : forall p f prm x,
  p !! f = Some (PFloat x) -> step p (f, prm) = Ok (<[f := written prm x]> p).

Lemma scaling_loop_frame l p p' f :
  for_each step l p = Ok p' -> f ∉ l.*1 -> p' !! f = p !! f.
Proof.
  revert p. induction l as [|[g prm] l IH]; intros p H Hf.
  - injection H as <-. reflexivity.
  - rewrite for_each_cons in H. apply bind_Ok in H as (p1 & H1 & H2).
    rewrite fmap_cons, not_elem_of_cons in Hf. destruct Hf as [Hne Hf].
    rewrite (IH _ H2 Hf). eapply step_frame; eauto.
Qed.

Lemma scaling_loop_value l p p' f prm x :
  for_each step l p = Ok p' -> NoDup l.*1 -> (f, prm) ∈ l ->
  p !! f = Some (PFloat x) -> p' !! f = Some (written prm x).
Proof.
  revert p. induction l as [|[g prm'] l IH]; intros p H Hnd Hin Hx.
  - inversion Hin.
  - rewrite for_each_cons in H. apply bind_Ok in H as (p1 & H1 & H2).
    rewrite fmap_cons in Hnd. apply NoDup_cons in Hnd as [Hg Hnd]. simpl in Hg.
    apply elem_of_cons in Hin as [[= <- <-] | Hin].
    + rewrite (step_float _ _ _ _ Hx) in H1. injection H1 as <-.
      rewrite (scaling_loop_frame _ _ _ _ H2 Hg). apply lookup_insert_eq.
    + apply (IH _ H2 Hnd Hin).
      rewrite (step_frame _ _ f _ _ H1); [exact Hx |].
      intros ->. apply Hg. apply (list_elem_of_fmap_2 fst) in Hin. exact Hin.
Qed.

Lemma scaling_loop_ok l p :
  NoDup l.*1 ->
  (forall f, f ∈ l.*1 -> exists x, p !! f = Some (PFloat x)) ->
  exists p', for_each step l p = Ok p'.
Proof.
  revert p. induction l as [|[g prm] l IH]; intros p Hnd H.
  - eexists. reflexivity.
  - rewrite fmap_cons in Hnd. apply NoDup_cons in Hnd as [Hg Hnd]. simpl in Hg.
    destruct (H g ltac:(left)) as [x Hx].
    rewrite for_each_cons, (step_float _ _ _ _ Hx). simpl.
    apply IH; [exact Hnd |]. intros f Hf.
    destruct (H f ltac:(right; exact Hf)) as [y Hy]. exists y.
    rewrite lookup_insert_ne; [exact Hy |]. intros ->. contradiction.
Qed.
End ScalingLoop.

(** *** The tables' keys *)

Lemma categorical_keys_NoDup : NoDup CATEGORICAL_MAPPINGS.*1.
Proof. by_evaluation. Qed.

Lemma robust_keys_NoDup : NoDup ROBUST_SCALE_PARAMS.*1.
Proof. by_evaluation. Qed.

Lemma standard_keys_NoDup : NoDup STANDARD_SCALE_PARAMS.*1.
Proof. by_evaluation. Qed.

Lemma categorical_keys_apart f :
  f ∈ CATEGORICAL_MAPPINGS.*1 ->
  f <> "location_mismatch" /\ (f ∉ numerical_features)
  /\ (f ∉ ROBUST_SCALE_PARAMS.*1) /\ (f ∉ STANDARD_SCALE_PARAMS.*1).
Proof.
  revert f. apply Forall_forall. by_evaluation.
Qed.

Lemma numerical_keys_apart f :
  f ∈ numerical_features ->
  f <> "location_mismatch" /\ (f ∉ CATEGORICAL_MAPPINGS.*1).
Proof.
  revert f. apply Forall_forall. by_evaluation.
Qed.

Lemma robust_keys_numerical f :
  f ∈ ROBUST_SCALE_PARAMS.*1 ->
  (f ∈ numerical_features) /\ (f ∉ STANDARD_SCALE_PARAMS.*1).
Proof.
  revert f. apply Forall_forall. by_evaluation.
Qed.

Lemma standard_keys_numerical f :
  f ∈ STANDARD_SCALE_PARAMS.*1 ->
  (f ∈ numerical_features) /\ (f ∉ ROBUST_SCALE_PARAMS.*1).
Proof.
  revert f. apply Forall_forall. by_evaluation.
Qed.

(* ===================================================================== *)
(** ** The working dictionary of a successful encoding *)
(* ===================================================================== *)

(** The four loops of a successful run, one after the other. *)
Lemma build_processed_stages m p :
  build_processed (JObj m) = Ok p ->
  exists p1 p3 p4,
    for_each (encode_categorical (JObj m)) CATEGORICAL_MAPPINGS ∅ = Ok p1
    /\ for_each (encode_numerical (JObj m)) numerical_features
         (<["location_mismatch" := PInt (location_flag m)]> p1) = Ok p3
    /\ for_each robust_scale ROBUST_SCALE_PARAMS p3 = Ok p4
    /\ for_each standard_scale STANDARD_SCALE_PARAMS p4 = Ok p.
Proof.
  unfold build_processed. intros H.
  apply bind_Ok in H as (p1 & H1 & H).
  apply bind_Ok in H as (p2 & H2 & H).
  apply bind_Ok in H as (p3 & H3 & H).
  apply bind_Ok in H as (p4 & H4 & H).
  injection H2 as <-. exists p1, p3, p4. auto.
Qed.

Section Processed.
Variables (m : gmap string json) (p : gmap string pynum).
Hypothesis built : build_processed (JObj m) = Ok p.

(** A feature that no loop names has no entry. *)
Lemma processed_categorical_absent f :
  f ∈ CATEGORICAL_MAPPINGS.*1 -> m !! f = None -> p !! f = None.
Proof.
  intros Hf Hm. destruct (build_processed_stages _ _ built) as (p1 & p3 & p4 & H1 & H3 & H4 & H5).
  destruct (categorical_keys_apart f Hf) as (Hl & Hn & Hr & Hs).
  rewrite (scaling_loop_frame standard_scale standard_scale_frame _ _ _ _ H5 Hs).
  rewrite (scaling_loop_frame robust_scale robust_scale_frame _ _ _ _ H4 Hr).
  rewrite (numerical_loop_frame _ _ _ _ _ H3 Hn).
  rewrite lookup_insert_ne by congruence.
  rewrite (categorical_loop_absent _ _ _ _ _ H1 Hm). apply lookup_empty.
Qed.

Lemma processed_categorical_present f mapping v :
  (f, mapping) ∈ CATEGORICAL_MAPPINGS -> m !! f = Some v ->
  exists code, dict_get mapping (lookup_value f v) 0 = Ok code
               /\ p !! f = Some (PInt code).
Proof.
  intros Hin Hm. destruct (build_processed_stages _ _ built) as (p1 & p3 & p4 & H1 & H3 & H4 & H5).
  assert (Hf : f ∈ CATEGORICAL_MAPPINGS.*1) by (apply (list_elem_of_fmap_2 fst) in Hin; exact Hin).
  destruct (categorical_keys_apart f Hf) as (Hl & Hn & Hr & Hs).
  destruct (categorical_loop_present _ _ _ _ _ _ _ H1 categorical_keys_NoDup Hin Hm)
    as (code & Hc & Hp).
  exists code. split; [exact Hc |].
  rewrite (scaling_loop_frame standard_scale standard_scale_frame _ _ _ _ H5 Hs).
  rewrite (scaling_loop_frame robust_scale robust_scale_frame _ _ _ _ H4 Hr).
  rewrite (numerical_loop_frame _ _ _ _ _ H3 Hn).
  rewrite lookup_insert_ne by congruence. exact Hp.
Qed.

Lemma processed_location_mismatch :
  p !! "location_mismatch" = Some (PInt (location_flag m)).
Proof.
  destruct (build_processed_stages _ _ built) as (p1 & p3 & p4 & H1 & H3 & H4 & H5).
  rewrite (scaling_loop_frame standard_scale standard_scale_frame _ _ _ _ H5) by by_evaluation.
  rewrite (scaling_loop_frame robust_scale robust_scale_frame _ _ _ _ H4) by by_evaluation.
  rewrite (numerical_loop_frame _ _ _ _ _ H3) by by_evaluation.
  apply lookup_insert_eq.
Qed.

(** A numerical feature holds its coerced value, scaled when a scaling
    table names it. *)
Lemma processed_robust f prm :
  (f, prm) ∈ ROBUST_SCALE_PARAMS ->
  exists x, py_float (raw_number m f) = Ok x
            /\ p !! f = Some (robust_written prm x).
Proof.
  intros Hin. destruct (build_processed_stages _ _ built) as (p1 & p3 & p4 & H1 & H3 & H4 & H5).
  assert (Hf : f ∈ ROBUST_SCALE_PARAMS.*1) by (apply (list_elem_of_fmap_2 fst) in Hin; exact Hin).
  destruct (robust_keys_numerical f Hf) as (Hn & Hs).
  destruct (numerical_loop_value _ _ _ _ _ H3 Hn) as (x & Hx & Hp).
  exists x. split; [exact Hx |].
  rewrite (scaling_loop_frame standard_scale standard_scale_frame _ _ _ _ H5 Hs).
  apply (scaling_loop_value robust_scale robust_written robust_scale_frame
           robust_scale_float _ _ _ _ _ _ H4 robust_keys_NoDup Hin Hp).
Qed.

Lemma processed_standard f prm :
  (f, prm) ∈ STANDARD_SCALE_PARAMS ->
  exists x, py_float (raw_number m f) = Ok x
            /\ p !! f = Some (standard_written prm x).
Proof.
  intros Hin. destruct (build_processed_stages _ _ built) as (p1 & p3 & p4 & H1 & H3 & H4 & H5).
  assert (Hf : f ∈ STANDARD_SCALE_PARAMS.*1) by (apply (list_elem_of_fmap_2 fst) in Hin; exact Hin).
  destruct (standard_keys_numerical f Hf) as (Hn & Hr).
  destruct (numerical_loop_value _ _ _ _ _ H3 Hn) as (x & Hx & Hp).
  exists x. split; [exact Hx |].
  apply (scaling_loop_value standard_scale standard_written standard_scale_frame
           standard_scale_float _ _ _ _ _ _ H5 standard_keys_NoDup Hin).
  rewrite (scaling_loop_frame robust_scale robust_scale_frame _ _ _ _ H4 Hr). exact Hp.
Qed.

Lemma processed_unscaled f :
  f ∈ numerical_features ->
  f ∉ ROBUST_SCALE_PARAMS.*1 -> f ∉ STANDARD_SCALE_PARAMS.*1 ->
  exists x, py_float (raw_number m f) = Ok x /\ p !! f = Some (PFloat x).
Proof.
  intros Hn Hr Hs. destruct (build_processed_stages _ _ built) as (p1 & p3 & p4 & H1 & H3 & H4 & H5).
  destruct (numerical_loop_value _ _ _ _ _ H3 Hn) as (x & Hx & Hp).
  exists x. split; [exact Hx |].
  rewrite (scaling_loop_frame standard_scale standard_scale_frame _ _ _ _ H5 Hs).
  rewrite (scaling_loop_frame robust_scale robust_scale_frame _ _ _ _ H4 Hr). exact Hp.
Qed.
End Processed.

(** The feature array of a successful run, position by position. *)
Lemma preprocess_input_Ok data vec :
  preprocess_input data = Ok vec ->
  exists p, build_processed data = Ok p
            /\ vec = map np_float64 (feature_array p).
Proof.
  unfold preprocess_input. intros H. apply bind_Ok in H as (p & Hp & [= <-]). eauto.
Qed.

Lemma feature_array_lookup p i f :
  FEATURE_ORDER !! i = Some f ->
  map np_float64 (feature_array p) !! i
  = Some (np_float64 (default (PInt 0) (p !! f))).
Proof.
  intros H. unfold feature_array. rewrite map_map.
  change (map ?g ?l) with (g <$> l). rewrite list_lookup_fmap, H. reflexivity.
Qed.

(** *** Equality with the literals *)

Lemma eq_int_one v : eq_int v 1 = true <-> is_one v.
Proof.
  unfold is_one. destruct v as [|b|z|f|s|l|o]; simpl.
  - split; [discriminate | intros [H | [H | (f & H & _)]]; discriminate].
  - destruct b; simpl; split; auto; try discriminate.
    intros [H | [H | (f & H & _)]]; discriminate.
  - rewrite Z.eqb_eq. split.
    + intros ->. auto.
    + intros [H | [[= ->] | (f & H & _)]]; [discriminate | reflexivity | discriminate].
  - change (SF2Prim (Z_to_SF 1)) with 1%float. split.
    + eauto.
    + intros [H | [H | (g & [= ->] & H)]]; [discriminate | discriminate | exact H].
  - split; [discriminate | intros [H | [H | (f & H & _)]]; discriminate].
  - split; [discriminate | intros [H | [H | (f & H & _)]]; discriminate].
  - split; [discriminate | intros [H | [H | (f & H & _)]]; discriminate].
Qed.

Lemma eq_str_spec v s : eq_str v s = true <-> v = JStr s.
Proof.
  destruct v; simpl; try (split; [discriminate | intros [=]]).
  rewrite String.eqb_eq. split; [intros -> | intros [= ->]]; reflexivity.
Qed.

Lemma in_literals_true_token v :
  in_literals v TRUE_TOKENS = true <-> true_token v.
Proof.
  unfold in_literals, TRUE_TOKENS, true_token. simpl.
  rewrite orb_false_r, !orb_true_iff, !eq_str_spec, eq_int_one. tauto.
Qed.

Lemma location_flag_spec m :
  (location_flag m = 1 <-> exists v, m !! "location_mismatch" = Some v /\ true_token v)
  /\ (location_flag m = 0 <-> ~ exists v, m !! "location_mismatch" = Some v /\ true_token v).
Proof.
  unfold location_flag.
  destruct (in_literals _ TRUE_TOKENS) eqn:E.
  - apply in_literals_true_token in E.
    assert (H : exists v, m !! "location_mismatch" = Some v /\ true_token v).
    { destruct (m !! "location_mismatch") as [v|]; simpl in E; [eauto |].
      destruct E as [E | [E | E]]; [discriminate | discriminate |].
      destruct E as [E | [E | (f & E & _)]]; discriminate. }
    split; split; auto; [discriminate | tauto].
  - assert (H : ~ exists v, m !! "location_mismatch" = Some v /\ true_token v).
    { intros (v & Hv & Ht). apply in_literals_true_token in Ht.
      assert (Hd : default JNull (m !! "location_mismatch") = v)
        by (rewrite Hv; reflexivity).
      rewrite Hd in E. congruence. }
    split; split; auto; [discriminate | tauto].
Qed.

(** *** Where an exception of the encoder comes from *)

(** Once the numerical loop is through, the scaling loops run to the end. *)
Lemma scaling_runs m p2 p3 :
  for_each (encode_numerical (JObj m)) numerical_features p2 = Ok p3 ->
  exists p, (for_each robust_scale ROBUST_SCALE_PARAMS p3
               ≫= for_each standard_scale STANDARD_SCALE_PARAMS) = Ok p.
Proof.
  intros H3.
  destruct (scaling_loop_ok robust_scale robust_written robust_scale_float
              ROBUST_SCALE_PARAMS p3 robust_keys_NoDup) as [p4 H4].
  { intros f Hf. destruct (robust_keys_numerical f Hf) as [Hn _].
    destruct (numerical_loop_value _ _ _ _ _ H3 Hn) as (x & _ & Hx). eauto. }
  destruct (scaling_loop_ok standard_scale standard_written standard_scale_float
              STANDARD_SCALE_PARAMS p4 standard_keys_NoDup) as [p5 H5].
  { intros f Hf. destruct (standard_keys_numerical f Hf) as [Hn Hr].
    destruct (numerical_loop_value _ _ _ _ _ H3 Hn) as (x & _ & Hx). exists x.
    rewrite (scaling_loop_frame robust_scale robust_scale_frame _ _ _ _ H4 Hr). exact Hx. }
  exists p5. rewrite H4. exact H5.
Qed.

Lemma build_processed_dict m :
  build_processed (JObj m) =
    for_each (encode_categorical (JObj m)) CATEGORICAL_MAPPINGS ∅ ≫= fun p1 =>
    for_each (encode_numerical (JObj m)) numerical_features
      (<["location_mismatch" := PInt (location_flag m)]> p1) ≫= fun p3 =>
    for_each robust_scale ROBUST_SCALE_PARAMS p3
      ≫= for_each standard_scale STANDARD_SCALE_PARAMS.
Proof.
  unfold build_processed.
  destruct (for_each (encode_categorical (JObj m)) CATEGORICAL_MAPPINGS ∅); reflexivity.
Qed.

Lemma raw_number_Raise m f e :
  py_float (raw_number m f) = Raise e ->
  exists v, m !! f = Some v /\ py_float v = Raise e.
Proof.
  unfold raw_number. destruct (m !! f) as [v|]; simpl; [eauto | discriminate].
Qed.

(** An exception of the encoder is the one a dictionary lookup or [float()]
    raised on the value of some field. *)
Lemma preprocess_input_Raise m e :
  preprocess_input (JObj m) = Raise e ->
  (exists f mapping v, (f, mapping) ∈ CATEGORICAL_MAPPINGS /\ m !! f = Some v
     /\ dict_get mapping (lookup_value f v) 0 = Raise e)
  \/ (exists f v, f ∈ numerical_features /\ m !! f = Some v /\ py_float v = Raise e).
Proof.
  unfold preprocess_input. intros H.
  apply bind_Raise in H as [H | (p & _ & H)]; [| discriminate].
  rewrite build_processed_dict in H.
  apply bind_Raise in H as [H | (p1 & _ & H)].
  { left. eapply categorical_loop_raise; eauto. }
  apply bind_Raise in H as [H | (p3 & H3 & H)].
  { right. destruct (numerical_loop_raise _ _ _ _ H) as (f & Hf & Hr).
    destruct (raw_number_Raise _ _ _ Hr) as (v & Hv & Hv'). eauto. }
  destruct (scaling_runs _ _ _ H3) as [p Hp]. congruence.
Qed.

(** The encoder runs to the end exactly on the requests whose present
    categorical values hash and whose present numerical values convert. *)
Lemma preprocess_input_runs m :
  (exists vec, preprocess_input (JObj m) = Ok vec)
  <-> categorical_ok m /\ numerical_ok m.
Proof.
  split.
  - intros [vec H]. split.
    + intros f mapping v Hin Hv.
      destruct (preprocess_input_Ok _ _ H) as (p & Hp & _).
      destruct (processed_categorical_present m p Hp f mapping v Hin Hv) as (code & Hc & _).
      destruct (hashable (lookup_value f v)) eqn:E; [reflexivity |].
      unfold dict_get in Hc. rewrite E in Hc. discriminate.
    + intros f v Hin Hv.
      destruct (preprocess_input_Ok _ _ H) as (p & Hp & _).
      destruct (build_processed_stages _ _ Hp) as (p1 & p3 & p4 & H1 & H3 & H4 & H5).
      destruct (numerical_loop_value _ _ _ _ _ H3 Hin) as (x & Hx & _).
      unfold raw_number in Hx. rewrite Hv in Hx. simpl in Hx. rewrite Hx. reflexivity.
  - intros [Hc Hn].
    destruct (preprocess_input (JObj m)) as [vec|e] eqn:H; [eauto |].
    exfalso. destruct (preprocess_input_Raise _ _ H)
      as [(f & mapping & v & Hin & Hv & Hr) | (f & v & Hin & Hv & Hr)].
    + apply dict_get_Raise in Hr. rewrite (Hc f mapping v Hin Hv) in Hr. discriminate.
    + specialize (Hn f v Hin Hv). rewrite Hr in Hn. discriminate.
Qed.

(** No scaling table of the application has a zero divisor. *)
Lemma robust_written_shipped f prm x :
  (f, prm) ∈ ROBUST_SCALE_PARAMS ->
  robust_written prm x = PFloat ((x - median prm) / iqr prm).
Proof.
  intros Hin. unfold robust_written.
  assert (H : Forall (fun kv => negb (PrimFloat.eqb (iqr (snd kv)) 0) = true)
                ROBUST_SCALE_PARAMS) by by_evaluation.
  rewrite Forall_forall in H. specialize (H _ Hin). simpl in H.
  rewrite H. reflexivity.
Qed.

Lemma standard_written_shipped f prm x :
  (f, prm) ∈ STANDARD_SCALE_PARAMS ->
  standard_written prm x = PFloat ((x - mean prm) / std prm).
Proof.
  intros Hin. unfold standard_written.
  assert (H : Forall (fun kv => negb (PrimFloat.eqb (std (snd kv)) 0) = true)
                STANDARD_SCALE_PARAMS) by by_evaluation.
  rewrite Forall_forall in H. specialize (H _ Hin). simpl in H.
  rewrite H. reflexivity.
Qed.

(* ===================================================================== *)
(** ** The handler *)
(* ===================================================================== *)

(** The response to a request that is encoded and scored. *)
Lemma predict_scored pkg clf data vec p :
  data <> JNull -> model pkg = Some clf ->
  preprocess_input data = Ok vec -> predict_proba clf vec = Ok p ->
  exists pred, predict (Some pkg) (Ok data) = (Success pred, 200)
               /\ risk_level pred = fst (risk_band p)
               /\ risk_color pred = snd (risk_band p).
Proof.
  intros Hd Hm Hv Hp. unfold predict, predict_try. simpl.
  assert (E : forall k : result (body * Z),
             match data with JNull => Ok (Failure "No JSON data received", 400) | _ => k end = k)
    by (intros k; destruct data; [contradiction | ..]; reflexivity).
  rewrite E, Hv, Hm. simpl. rewrite Hp. simpl.
  destruct (risk_band p) as [level color]. eexists. split; [reflexivity |]. auto.
Qed.

(** The response to a request the encoder raises on, with a model loaded. *)
Lemma predict_encoder_raises pkg data e :
  data <> JNull -> preprocess_input data = Raise e ->
  predict (Some pkg) (Ok data) = (Failure (str_exc e), 400).
Proof.
  intros Hd He. unfold predict, predict_try. simpl.
  destruct data; [contradiction | ..]; rewrite He; reflexivity.
Qed.

(* ===================================================================== *)
(** ** The model at work *)
(* ===================================================================== *)

Example py_float_accepts :
  map (fun s => py_float (JStr s))
      ["500"; " 1.5 "; "1_000"; "-12.5e-1"; ".5"; "1."; "Infinity"; "1e400"]
  = map Ok [500; 1.5; 1000; -1.25; 0.5; 1; infinity; infinity]%float.
Proof. vm_compute. reflexivity. Qed.

Example py_float_refuses :
  map (fun s => is_ok (py_float (JStr s)))
      ["abc"; ""; "."; "1e"; "1__0"; "_1"; "0x10"; "1 2"; "infin"]
  = [false; false; false; false; false; false; false; false; false].
Proof. vm_compute. reflexivity. Qed.

(** Digits and white space of other scripts are read as Python reads them:
    fullwidth, Arabic-Indic and Devanagari digits, a no-break space (bytes
    194 160), an ideographic space (227 128 128). A no-break space between
    digits, a superscript two, a zero-width space (226 128 139) or a letter
    is no part of a number. *)
Example py_float_other_scripts :
  map (fun s => py_float (JStr s))
      ["１２３"; "٣"; text_of_bytes [194; 160] +:+ "1.5";
       "12" +:+ text_of_bytes [227; 128; 128]; "१२.५e１"]
  = map Ok [123; 3; 1.5; 12; 125]%float
  /\ map (fun s => is_ok (py_float (JStr s)))
         ["12" +:+ text_of_bytes [194; 160] +:+ "000"; "²";
          text_of_bytes [226; 128; 139] +:+ "1"; "1é"]
     = [false; false; false; false].
Proof. split; vm_compute; reflexivity. Qed.

(** [repr] keeps the printable characters of any script and escapes the
    others: a no-break space, the control U+0085 (bytes 194 133), a
    zero-width space. *)
Example py_repr_examples :
  map py_repr
      ["abc"; "é１"; "12" +:+ text_of_bytes [194; 160] +:+ "000";
       "a" +:+ text_of_bytes [194; 133] +:+ "b"; text_of_bytes [226; 128; 139]]
  = ["'abc'"; "'é１'"; "'12\xa0000'"; "'a\x85b'"; "'\u200b'"]
  /\ py_repr "it's"
     = text_of_bytes [34] +:+ "it's" +:+ text_of_bytes [34].
Proof. split; vm_compute; reflexivity. Qed.

Example py_float_of_other_values :
  py_float (JBool true) = Ok 1%float
  /\ py_float (JInt 500) = Ok 500%float
  /\ is_ok (py_float (JInt (10 ^ 400))) = false
  /\ is_ok (py_float JNull) = false
  /\ is_ok (py_float (JArr [])) = false.
Proof. repeat split; vm_compute; reflexivity. Qed.

Example py_round2_examples :
  map py_round2 [12.5; 2.675; 0.125; 69.99999999999999; -0.001]%float
  = [12.5; 2.67; 0.12; 70; -0]%float.
Proof. vm_compute. reflexivity. Qed.

Example risk_band_examples :
  map (fun q => fst (risk_band q)) [0.6999; 0.4999; 0.2999; 0; 1; nan]%float
  = ["HIGH"; "MEDIUM"; "LOW"; "MINIMAL"; "CRITICAL"; "MINIMAL"].
Proof. vm_compute. reflexivity. Qed.

Example location_mismatch_examples :
  map (fun v => encoded_at (<["location_mismatch" := v]> ∅) 10)
      [JStr "true"; JBool true; JInt 1; JStr "1"; JFloat 1;
       JStr "false"; JBool false; JInt 0; JNull; JStr "True"; JInt 2]
  = map Some [1; 1; 1; 1; 1; 0; 0; 0; 0; 0; 0]%float
  /\ encoded_at ∅ 10 = Some 0%float.
Proof. split; vm_compute; reflexivity. Qed.

Example new_device_examples :
  map (fun v => encoded_at (<["new_device" := v]> ∅) 8)
      [JStr "true"; JBool true; JInt 1; JFloat 1;
       JStr "false"; JBool false; JInt 0; JStr "1"; JNull; JArr []]
  = map Some [1; 1; 1; 1; 0; 0; 0; 0; 0; 0]%float
  /\ encoded_at ∅ 8 = Some 0%float.
Proof. split; vm_compute; reflexivity. Qed.

(** A categorical field holding a list is refused by the dictionary
    lookup. *)
Example unhashable_categorical_value :
  preprocess_input (JObj (<["home_country" := JArr []]> ∅))
  = Raise (TypeError "unhashable type: 'list'").
Proof. vm_compute. reflexivity. Qed.

(** Every scaled feature is 0.0 when its field holds the median or the
    mean of its table. *)
Example scaled_features_at_centre :
  map (encoded_at (list_to_map
         [ ("amount_src", JInt 200); ("amount_usd", JInt 180); ("fee", JInt 4);
           ("exchange_rate_src_to_dest", JInt 1);
           ("chargeback_history_count", JInt 0);
           ("ip_risk_score", JFloat 0.5); ("account_age_days", JInt 500);
           ("device_trust_score", JFloat 0.65) ]))
      [4; 5; 6; 7; 15; 11; 13; 14]%nat
  = map Some [0; 0; 0; 0; 0; 0; 0; 0]%float.
Proof. vm_compute. reflexivity. Qed.

Example predict_examples :
  predict (Some example_package) (Ok (JObj ∅))
  = (Success {| fraud_probability := 25;
                is_fraud_prediction := false;
                risk_level := "LOW";
                risk_color := "#84cc16";
                thresholds_best := 35;
                thresholds_default := 50;
                recommended := get_recommendation "LOW" 0.25 |}, 200)
  /\ predict (Some example_package) (Ok (JArr []))
     = (Failure "'list' object has no attribute 'get'", 400)
  /\ predict (Some {| model := None; best_threshold := None;
                      default_threshold := None |}) (Ok (JObj ∅))
     = (Failure "'model'", 400).
Proof. repeat split; vm_compute; reflexivity. Qed.

(** X14: each of the three fields of the standard table is encoded as
    [(value - mean) / std] with the parameters of the table, where [value]
    is the float its raw value converts to. *)
Lemma standard_scaling m vec i f prm :
  preprocess_input (JObj m) = Ok vec ->
  (f, prm) ∈ STANDARD_SCALE_PARAMS -> FEATURE_ORDER !! i = Some f ->
  exists x, py_float (raw_number m f) = Ok x
            /\ vec !! i = Some ((x - mean prm) / std prm)%float.
Proof.
  intros H Hin Hi.
  destruct (preprocess_input_Ok _ _ H) as (p & Hp & ->).
  destruct (processed_standard m p Hp f prm Hin) as (x & Hx & Hpf).
  exists x. split; [exact Hx |].
  rewrite (feature_array_lookup p i f Hi), Hpf,
    (standard_written_shipped f prm x Hin). reflexivity.
Qed.

(* ===================================================================== *)
(** ** Properties of the specification *)
(* ===================================================================== *)

(** C1, as the code has it: the encoder returns 25 values, not 24.
    The empty request is encoded to a vector of length 25. *)
Lemma encode_empty_request_has_25_values :
  exists vec, preprocess_input (JObj ∅) = Ok vec
              /\ length vec = 25%nat /\ Nat.eqb (length vec) 24 = false.
Proof.
  destruct (preprocess_input (JObj ∅)) as [vec|e] eqn:E; [| vm_compute in E; discriminate].
  exists vec. split; [reflexivity |].
  vm_compute in E. injection E as <-. split; reflexivity.
Qed.

(** C1 (amended): whenever the encoder returns, the vector has exactly 25
    values, one per name of [FEATURE_ORDER] and in that order: the value at
    position [i] is the entry of the working dictionary for the [i]-th
    name, or 0 when the dictionary has none. Neither the length nor the
    order depends on the fields of the request. *)
Theorem encode_length_and_order data vec :
  preprocess_input data = Ok vec ->
  length vec = 25%nat
  /\ length vec = length FEATURE_ORDER
  /\ exists processed,
       build_processed data = Ok processed
       /\ forall i f, FEATURE_ORDER !! i = Some f ->
            vec !! i = Some (np_float64 (default (PInt 0) (processed !! f))).
Proof.
  intros H. destruct (preprocess_input_Ok _ _ H) as (p & Hp & ->).
  assert (L : length (map np_float64 (feature_array p)) = 25%nat).
  { unfold feature_array. rewrite !length_map. reflexivity. }
  split; [exact L |]. split; [rewrite L; reflexivity |].
  exists p. split; [exact Hp |]. intros i f Hf. apply feature_array_lookup, Hf.
Qed.

Lemma encode_length_and_order_witness :
  exists vec, preprocess_input (JObj ∅) = Ok vec /\ length vec = 25%nat.
Proof.
  eexists. split; [vm_compute; reflexivity |].
  refine (proj1 (encode_length_and_order (JObj ∅) _ _)). vm_compute. reflexivity.
Defined.

(** C2: the risk level is assigned from the probability top-down, the
    first cut-point reached deciding: at least 0.7 is CRITICAL, else at
    least 0.5 is HIGH, else at least 0.3 is MEDIUM, else at least 0.1 is
    LOW, else MINIMAL; every bound belongs to the band above it, so 0.7 is
    CRITICAL, 0.5 HIGH, 0.3 MEDIUM, 0.1 LOW and 0.0999 MINIMAL. A scored
    request is answered with that level. *)
Theorem risk_level_by_cut_points (p : float) :
  (PrimFloat.leb 0.7 p = true -> fst (risk_band p) = "CRITICAL")
  /\ (PrimFloat.leb 0.7 p = false -> PrimFloat.leb 0.5 p = true ->
      fst (risk_band p) = "HIGH")
  /\ (PrimFloat.leb 0.7 p = false -> PrimFloat.leb 0.5 p = false ->
      PrimFloat.leb 0.3 p = true -> fst (risk_band p) = "MEDIUM")
  /\ (PrimFloat.leb 0.7 p = false -> PrimFloat.leb 0.5 p = false ->
      PrimFloat.leb 0.3 p = false -> PrimFloat.leb 0.1 p = true ->
      fst (risk_band p) = "LOW")
  /\ (PrimFloat.leb 0.7 p = false -> PrimFloat.leb 0.5 p = false ->
      PrimFloat.leb 0.3 p = false -> PrimFloat.leb 0.1 p = false ->
      fst (risk_band p) = "MINIMAL")
  /\ map (fun q => fst (risk_band q)) [0.7; 0.5; 0.3; 0.1; 0.0999]%float
     = ["CRITICAL"; "HIGH"; "MEDIUM"; "LOW"; "MINIMAL"]
  /\ (forall pkg clf data vec,
        data <> JNull -> model pkg = Some clf ->
        preprocess_input data = Ok vec -> predict_proba clf vec = Ok p ->
        exists pred, predict (Some pkg) (Ok data) = (Success pred, 200)
                     /\ risk_level pred = fst (risk_band p)).
Proof.
  unfold risk_band.
  repeat split;
    try (repeat (let E := fresh in intros E; rewrite E); reflexivity).
  intros pkg clf data vec Hd Hm Hv Hp.
  destruct (predict_scored pkg clf data vec p Hd Hm Hv Hp) as (pred & H1 & H2 & _).
  exists pred. split; [exact H1 | exact H2].
Qed.

(** C8, as the code has it: a body that is the JSON value null is turned
    down before the model is looked at, with status 400. *)
Lemma predict_null_body_without_model :
  predict None (Ok JNull) = (Failure "No JSON data received", 400).
Proof. reflexivity. Qed.

(** C8 (amended): while no model package is loaded, every call whose body
    is a JSON value other than null is answered with status 500 and the
    error "Model not loaded. Please check if the model file exists."; a
    null body and a body that cannot be read are answered with status 400.
    The answer depends on nothing but the request and the package, which
    the handler never changes. *)
Theorem predict_without_model data :
  data <> JNull ->
  predict None (Ok data)
  = (Failure "Model not loaded. Please check if the model file exists.", 500)
  /\ snd (predict None (Ok JNull)) = 400
  /\ forall e, predict None (Raise e) = (Failure (str_exc e), 400).
Proof.
  intros Hd. split; [| split; [reflexivity | intros e; reflexivity]].
  destruct data; [contradiction | ..]; reflexivity.
Qed.

Lemma predict_without_model_witness :
  predict None (Ok (JObj ∅))
  = (Failure "Model not loaded. Please check if the model file exists.", 500).
Proof.
  apply (predict_without_model (JObj ∅)). discriminate.
Defined.

(** C7: the encoded [location_mismatch], at position 10 of the vector, is 1
    exactly when the request holds for it one of the tokens "true", true,
    the number 1 or "1", and 0 for every other value and for a missing
    field. *)
Theorem location_mismatch_tokens m vec :
  preprocess_input (JObj m) = Ok vec ->
  FEATURE_ORDER !! 10%nat = Some "location_mismatch"
  /\ (vec !! 10%nat = Some 1%float
      <-> exists v, m !! "location_mismatch" = Some v /\ true_token v)
  /\ (vec !! 10%nat = Some 0%float
      <-> ~ exists v, m !! "location_mismatch" = Some v /\ true_token v).
Proof.
  intros H. split; [reflexivity |].
  destruct (preprocess_input_Ok _ _ H) as (p & Hp & ->).
  rewrite (feature_array_lookup p 10 "location_mismatch" eq_refl).
  rewrite (processed_location_mismatch m p Hp). simpl.
  destruct (location_flag_spec m) as [H1 H0].
  assert (Hflag : location_flag m = 1 \/ location_flag m = 0)
    by (unfold location_flag; destruct (in_literals _ TRUE_TOKENS); auto).
  destruct Hflag as [E | E]; rewrite E.
  - change (SF2Prim (Z_to_SF 1)) with 1%float. split; split.
    + intros _. apply H1, E.
    + reflexivity.
    + intros X. discriminate X.
    + intros Hn. destruct Hn. apply H1, E.
  - change (SF2Prim (Z_to_SF 0)) with 0%float. split; split.
    + intros X. discriminate X.
    + intros Hv. apply H1 in Hv. congruence.
    + intros _. apply H0, E.
    + reflexivity.
Qed.

Lemma location_mismatch_tokens_witness :
  exists vec,
    preprocess_input (JObj (<["location_mismatch" := JStr "true"]> ∅)) = Ok vec
    /\ vec !! 10%nat = Some 1%float.
Proof.
  eexists. split; [vm_compute; reflexivity |].
  apply (location_mismatch_tokens (<["location_mismatch" := JStr "true"]> ∅));
    [vm_compute; reflexivity |].
  exists (JStr "true"). split; [reflexivity | left; reflexivity].
Defined.

(** C9, as the code has it: [value == True] also holds of the number 1, so
    a request with [new_device] set to the integer 1, which is neither the
    string "true" nor the boolean true, is encoded to 1. *)
Lemma new_device_number_one_is_true :
  lookup_value "new_device" (JInt 1) = JBool true
  /\ exists vec,
       preprocess_input (JObj (<["new_device" := JInt 1]> ∅)) = Ok vec
       /\ vec !! 8%nat = Some 1%float.
Proof.
  split; [reflexivity |].
  destruct (preprocess_input (JObj (<["new_device" := JInt 1]> ∅)))
    as [vec|e] eqn:E; vm_compute in E; [| discriminate].
  exists vec. split; [reflexivity |]. injection E as <-. reflexivity.
Qed.

(** What the dictionary of [new_device] holds for a boolean. *)
Lemma new_device_code (b : bool) :
  dict_get [(LBool false, 0); (LBool true, 1)] (JBool b) 0
  = Ok (if b then 1 else 0).
Proof. destruct b; reflexivity. Qed.

Lemma lookup_value_new_device v :
  lookup_value "new_device" v = JBool true <-> v = JStr "true" \/ is_one v.
Proof.
  unfold lookup_value. simpl.
  rewrite <- eq_int_one, <- eq_str_spec, <- orb_true_iff.
  destruct (eq_str v "true" || eq_int v 1); split; auto; discriminate.
Qed.

(** C9 (amended): the value of [new_device] is first normalized to a
    boolean, true exactly when it is the string "true", the boolean true or
    a number equal to 1, and the encoded feature, at position 8 of the
    vector, is the code of that boolean: 1 for true and 0 for false. Every
    other value, and a missing field, is encoded to 0. *)
Theorem new_device_normalized m vec :
  preprocess_input (JObj m) = Ok vec ->
  FEATURE_ORDER !! 8%nat = Some "new_device"
  /\ (forall v, lookup_value "new_device" v
                = JBool (eq_str v "true" || eq_int v 1))
  /\ (vec !! 8%nat = Some 1%float
      <-> exists v, m !! "new_device" = Some v /\ (v = JStr "true" \/ is_one v))
  /\ (vec !! 8%nat = Some 0%float
      <-> ~ exists v, m !! "new_device" = Some v /\ (v = JStr "true" \/ is_one v)).
Proof.
  intros H. split; [reflexivity |]. split; [reflexivity |].
  destruct (preprocess_input_Ok _ _ H) as (p & Hp & ->).
  rewrite (feature_array_lookup p 8 "new_device" eq_refl).
  destruct (m !! "new_device") as [v|] eqn:Hv.
  - destruct (processed_categorical_present m p Hp "new_device"
                [(LBool false, 0); (LBool true, 1)] v ltac:(at_position 6%nat) Hv)
      as (code & Hc & ->).
    pose proof (lookup_value_new_device v) as Hn.
    destruct (lookup_value "new_device" v) as [|b| | | | |] eqn:El; try discriminate.
    rewrite new_device_code in Hc. injection Hc as <-. simpl.
    destruct b.
    + change (SF2Prim (Z_to_SF 1)) with 1%float. split; split.
      * intros _. exists v. split; [reflexivity | apply Hn; reflexivity].
      * reflexivity.
      * intros X. discriminate X.
      * intros Hno. destruct Hno. exists v. split; [reflexivity | apply Hn; reflexivity].
    + change (SF2Prim (Z_to_SF 0)) with 0%float. split; split.
      * intros X. discriminate X.
      * intros (w & [= <-] & Hw). apply Hn in Hw. discriminate.
      * intros _ (w & [= <-] & Hw). apply Hn in Hw. discriminate.
      * reflexivity.
  - rewrite (processed_categorical_absent m p Hp "new_device" ltac:(by_evaluation) Hv).
    simpl. change (SF2Prim (Z_to_SF 0)) with 0%float. split; split.
    + intros X. discriminate X.
    + intros (w & [=] & _).
    + intros _ (w & [=] & _).
    + reflexivity.
Qed.

Lemma new_device_normalized_witness :
  exists vec,
    preprocess_input (JObj (<["new_device" := JStr "true"]> ∅)) = Ok vec
    /\ vec !! 8%nat = Some 1%float.
Proof.
  eexists. split; [vm_compute; reflexivity |].
  apply (new_device_normalized (<["new_device" := JStr "true"]> ∅));
    [vm_compute; reflexivity |].
  exists (JStr "true"). split; [reflexivity | left; reflexivity].
Defined.

(** C10: on every request that is encoded, the four numerical fields
    [risk_score_internal], [txn_velocity_1h], [txn_velocity_24h] and
    [corridor_risk] stand in the vector, at positions 16 to 19, as the
    float their raw value converts to, unscaled, and as 0.0 when the field
    is missing. The numerical fields are these four, the five of the robust
    table and the three of the standard table. *)
Theorem unscaled_numerical_features m vec i f :
  preprocess_input (JObj m) = Ok vec ->
  (i, f) ∈ UNSCALED_FEATURES ->
  FEATURE_ORDER !! i = Some f
  /\ (exists x, py_float (raw_number m f) = Ok x
                /\ vec !! i = Some x
                /\ (m !! f = None -> x = 0%float))
  /\ (f ∉ ROBUST_SCALE_PARAMS.*1) /\ (f ∉ STANDARD_SCALE_PARAMS.*1)
  /\ length ROBUST_SCALE_PARAMS = 5%nat /\ length STANDARD_SCALE_PARAMS = 3%nat
  /\ forall g, g ∈ numerical_features ->
       g ∈ ROBUST_SCALE_PARAMS.*1 \/ g ∈ STANDARD_SCALE_PARAMS.*1
       \/ g ∈ UNSCALED_FEATURES.*2.
Proof.
  intros H Hin.
  assert (K : Forall (fun kv => FEATURE_ORDER !! fst kv = Some (snd kv)
                        /\ snd kv ∈ numerical_features
                        /\ (snd kv ∉ ROBUST_SCALE_PARAMS.*1)
                        /\ (snd kv ∉ STANDARD_SCALE_PARAMS.*1)) UNSCALED_FEATURES).
  { repeat constructor; by_evaluation. }
  rewrite Forall_forall in K. destruct (K _ Hin) as (Hi & Hn & Hr & Hs). simpl in *.
  destruct (preprocess_input_Ok _ _ H) as (p & Hp & ->).
  destruct (processed_unscaled m p Hp f Hn Hr Hs) as (x & Hx & Hpf).
  split; [exact Hi |]. split; [| split; [exact Hr | split; [exact Hs |]]].
  - exists x. split; [exact Hx |]. split.
    + rewrite (feature_array_lookup p i f Hi), Hpf. reflexivity.
    + intros Hm. unfold raw_number in Hx. rewrite Hm in Hx. simpl in Hx.
      injection Hx as <-. reflexivity.
  - split; [reflexivity |]. split; [reflexivity |].
    apply Forall_forall. by_evaluation.
Qed.

Lemma unscaled_numerical_features_witness :
  exists vec,
    preprocess_input (JObj (<["corridor_risk" := JStr "0.25"]> ∅)) = Ok vec
    /\ vec !! 19%nat = Some 0.25%float.
Proof.
  destruct (preprocess_input (JObj (<["corridor_risk" := JStr "0.25"]> ∅)))
    as [vec|e] eqn:E; [| vm_compute in E; discriminate].
  exists vec. split; [reflexivity |].
  destruct (unscaled_numerical_features _ vec 19%nat "corridor_risk" E
              ltac:(at_position 3%nat)) as (_ & (x & Hx & Hv & _) & _).
  rewrite Hv. vm_compute in Hx. injection Hx as <-. reflexivity.
Defined.

(** C6: each of the five fields of the robust table is encoded as
    [(value - median) / iqr] with the parameters of the table, where
    [value] is the float its raw value converts to; the scaling step stores
    0 for a field whose [iqr] is zero; and [amount_src = 500] is encoded to
    [(500 - 200.0) / 300.0], which is exactly 1.0. *)
Theorem robust_scaling :
  length ROBUST_SCALE_PARAMS = 5%nat
  /\ (forall m vec i f prm,
        preprocess_input (JObj m) = Ok vec ->
        (f, prm) ∈ ROBUST_SCALE_PARAMS -> FEATURE_ORDER !! i = Some f ->
        exists x, py_float (raw_number m f) = Ok x
                  /\ vec !! i = Some ((x - median prm) / iqr prm)%float)
  /\ (forall p f prm,
        PrimFloat.eqb (iqr prm) 0 = true ->
        robust_scale p (f, prm) = Ok (<[f := PInt 0]> p)
        /\ np_float64 (PInt 0) = 0%float)
  /\ (exists vec,
        preprocess_input (JObj (<["amount_src" := JInt 500]> ∅)) = Ok vec
        /\ vec !! 4%nat = Some 1%float)
  /\ ((500 - 200.0) / 300.0 = 1)%float.
Proof.
  split; [reflexivity |]. split; [| split; [| split; [| reflexivity]]].
  - intros m vec i f prm H Hin Hi.
    destruct (preprocess_input_Ok _ _ H) as (p & Hp & ->).
    destruct (processed_robust m p Hp f prm Hin) as (x & Hx & Hpf).
    exists x. split; [exact Hx |].
    rewrite (feature_array_lookup p i f Hi), Hpf,
      (robust_written_shipped f prm x Hin). reflexivity.
  - intros p f prm Hz. split; [| reflexivity].
    unfold robust_scale. rewrite Hz. reflexivity.
  - destruct (preprocess_input (JObj (<["amount_src" := JInt 500]> ∅)))
      as [vec|e] eqn:E; vm_compute in E; [| discriminate].
    exists vec. split; [reflexivity |]. injection E as <-. reflexivity.
Qed.

(** *** Requests that differ in one field *)

Lemma lookup_value_hashable c v :
  hashable v = true -> hashable (lookup_value c v) = true.
Proof. unfold lookup_value. destruct (String.eqb c "new_device"); auto. Qed.

Lemma categorical_loop_ext m m' l p :
  (forall g, g ∈ l.*1 -> m' !! g = m !! g) ->
  for_each (encode_categorical (JObj m')) l p
  = for_each (encode_categorical (JObj m)) l p.
Proof.
  revert p. induction l as [|[g mapping] l IH]; intros p H; [reflexivity |].
  rewrite !for_each_cons, !encode_categorical_dict, (H g ltac:(left)).
  destruct (m !! g) as [v|]; simpl.
  - destruct (dict_get mapping (lookup_value g v) 0); simpl; [| reflexivity].
    apply IH. intros; apply H; right; assumption.
  - apply IH. intros; apply H; right; assumption.
Qed.

Lemma numerical_loop_ext m m' l p :
  (forall g, g ∈ l -> raw_number m' g = raw_number m g) ->
  for_each (encode_numerical (JObj m')) l p
  = for_each (encode_numerical (JObj m)) l p.
Proof.
  revert p. induction l as [|g l IH]; intros p H; [reflexivity |].
  rewrite !for_each_cons, !encode_numerical_dict, (H g ltac:(left)).
  destruct (py_float (raw_number m g)); simpl; [| reflexivity].
  apply IH. intros; apply H; right; assumption.
Qed.

(** Two requests that agree on every field the encoder reads are encoded
    alike. *)
Lemma preprocess_input_ext m m' :
  (forall g, g ∈ CATEGORICAL_MAPPINGS.*1 -> m' !! g = m !! g) ->
  m' !! "location_mismatch" = m !! "location_mismatch" ->
  (forall g, g ∈ numerical_features -> raw_number m' g = raw_number m g) ->
  preprocess_input (JObj m') = preprocess_input (JObj m).
Proof.
  intros Hc Hl Hn. unfold preprocess_input.
  rewrite !build_processed_dict, (categorical_loop_ext m m' _ _ Hc).
  unfold location_flag. rewrite Hl.
  destruct (for_each (encode_categorical (JObj m)) CATEGORICAL_MAPPINGS ∅);
    [| reflexivity].
  cbn [mbind result_bind].
  rewrite (numerical_loop_ext m m' _ _ Hn). reflexivity.
Qed.

(** Every name of [FEATURE_ORDER] is a categorical field, the location
    flag or a numerical field. *)
Lemma feature_kinds i f :
  FEATURE_ORDER !! i = Some f ->
  f ∈ CATEGORICAL_MAPPINGS.*1 \/ f = "location_mismatch"
  \/ f ∈ numerical_features.
Proof.
  intros H. apply list_elem_of_lookup_2 in H. revert f H.
  apply Forall_forall. by_evaluation.
Qed.

(** C3, as the code has it: a numerical field that holds a text which is
    not a number makes the encoder raise. *)
Lemma encode_raises_on_non_numeric_text :
  preprocess_input (JObj (<["fee" := JStr "abc"]> ∅))
  = Raise (ValueError "could not convert string to float: 'abc'").
Proof. vm_compute. reflexivity. Qed.

(** C3 (amended): the encoder returns a feature vector exactly on the
    requests whose present categorical fields hold values that hash and
    whose present numerical fields hold values that [float()] converts;
    on those it never raises. A missing field is coerced to a default: a
    missing numerical field is encoded as the number 0 is, and a missing
    categorical field or location flag is encoded to 0. *)
Theorem encode_total_on_convertible_requests (m : gmap string json) :
  ((exists vec, preprocess_input (JObj m) = Ok vec)
   <-> categorical_ok m /\ numerical_ok m)
  /\ (forall f, f ∈ numerical_features -> m !! f = None ->
        preprocess_input (JObj m)
        = preprocess_input (JObj (<[f := JInt 0]> m)))
  /\ (forall vec i f,
        preprocess_input (JObj m) = Ok vec ->
        FEATURE_ORDER !! i = Some f -> f ∉ numerical_features ->
        m !! f = None -> vec !! i = Some 0%float).
Proof.
  split; [apply preprocess_input_runs |]. split.
  - intros f Hf Hm. symmetry.
    destruct (numerical_keys_apart f Hf) as [Hl Hc].
    apply preprocess_input_ext.
    + intros g Hg. apply lookup_insert_ne. intros ->. contradiction.
    + apply lookup_insert_ne. exact Hl.
    + intros g _. unfold raw_number. destruct (decide (f = g)) as [<- | Hne].
      * rewrite lookup_insert_eq, Hm. reflexivity.
      * rewrite lookup_insert_ne by exact Hne. reflexivity.
  - intros vec i f H Hi Hn Hm.
    destruct (preprocess_input_Ok _ _ H) as (p & Hp & ->).
    rewrite (feature_array_lookup p i f Hi).
    destruct (feature_kinds i f Hi) as [Hc | [-> | Hnum]]; [| | contradiction].
    + rewrite (processed_categorical_absent m p Hp f Hc Hm). reflexivity.
    + rewrite (processed_location_mismatch m p Hp). unfold location_flag.
      rewrite Hm. reflexivity.
Qed.

(** C5: a categorical field that holds a token its dictionary does not
    know never makes the encoder fail, and is encoded to the fallback code
    0: the loop step stores 0 without raising, the request is encoded
    exactly when the request without that field is, and the field's
    position in the vector holds 0. A token is any value that hashes: a
    string, a boolean, a number or null. *)
Theorem unknown_categorical_token m c mapping v :
  (c, mapping) ∈ CATEGORICAL_MAPPINGS ->
  hashable v = true ->
  dict_find mapping (lookup_value c v) = None ->
  (forall p, encode_categorical (JObj (<[c := v]> m)) p (c, mapping)
             = Ok (<[c := PInt 0]> p))
  /\ ((exists vec, preprocess_input (JObj (<[c := v]> m)) = Ok vec)
      <-> (exists vec, preprocess_input (JObj (delete c m)) = Ok vec))
  /\ (forall vec i,
        preprocess_input (JObj (<[c := v]> m)) = Ok vec ->
        FEATURE_ORDER !! i = Some c -> vec !! i = Some 0%float).
Proof.
  intros Hin Hh Hfind.
  assert (Hget : dict_get mapping (lookup_value c v) 0 = Ok 0).
  { rewrite dict_get_hashable by (apply lookup_value_hashable, Hh).
    rewrite Hfind. reflexivity. }
  assert (Hc : c ∈ CATEGORICAL_MAPPINGS.*1)
    by (apply (list_elem_of_fmap_2 fst) in Hin; exact Hin).
  destruct (categorical_keys_apart c Hc) as (_ & Hnum & _).
  split; [| split].
  - intros p. rewrite encode_categorical_dict, lookup_insert_eq, Hget. reflexivity.
  - rewrite !preprocess_input_runs. unfold categorical_ok, numerical_ok.
    split; intros [Hcat Hn]; split.
    + intros f mp w Hf Hw. apply lookup_delete_Some in Hw as [Hne Hw].
      apply (Hcat f mp w Hf). rewrite lookup_insert_ne; [exact Hw | exact Hne].
    + intros f w Hf Hw. apply lookup_delete_Some in Hw as [Hne Hw].
      apply (Hn f w Hf). rewrite lookup_insert_ne; [exact Hw | exact Hne].
    + intros f mp w Hf Hw. destruct (decide (c = f)) as [<- | Hne].
      * rewrite lookup_insert_eq in Hw. injection Hw as <-.
        apply lookup_value_hashable, Hh.
      * rewrite lookup_insert_ne in Hw by exact Hne.
        apply (Hcat f mp w Hf). rewrite lookup_delete_ne; [exact Hw | exact Hne].
    + intros f w Hf Hw. assert (Hne : c <> f) by (intros ->; contradiction).
      rewrite lookup_insert_ne in Hw by exact Hne.
      apply (Hn f w Hf). rewrite lookup_delete_ne; [exact Hw | exact Hne].
  - intros vec i H Hi.
    destruct (preprocess_input_Ok _ _ H) as (p & Hp & ->).
    destruct (processed_categorical_present _ p Hp c mapping v Hin
                (lookup_insert_eq _ _ _)) as (code & Hcode & Hpc).
    rewrite Hget in Hcode. injection Hcode as <-.
    rewrite (feature_array_lookup p i c Hi), Hpc. reflexivity.
Qed.

Lemma unknown_categorical_token_witness :
  exists vec,
    preprocess_input (JObj (<["home_country" := JStr "ZZ"]> ∅)) = Ok vec
    /\ vec !! 0%nat = Some 0%float.
Proof.
  destruct (preprocess_input (JObj (<["home_country" := JStr "ZZ"]> ∅)))
    as [vec|e] eqn:E; [| vm_compute in E; discriminate].
  exists vec. split; [reflexivity |].
  apply (unknown_categorical_token ∅ "home_country"
           [(LStr "CA", 0); (LStr "UK", 1); (LStr "US", 2)] (JStr "ZZ")
           ltac:(at_position 0%nat) eq_refl eq_refl); [exact E | reflexivity].
Defined.

(** C4, as the code has it: the response to a numerical field that holds
    "abc" carries the text of Python's exception, which quotes the value
    and does not name the field; it is the same whichever field holds the
    value. *)
Lemma coercion_error_names_value_not_field :
  predict (Some example_package) (Ok (JObj (<["fee" := JStr "abc"]> ∅)))
  = (Failure "could not convert string to float: 'abc'", 400)
  /\ predict (Some example_package) (Ok (JObj (<["amount_usd" := JStr "abc"]> ∅)))
     = (Failure "could not convert string to float: 'abc'", 400)
  /\ is_substring "fee" "could not convert string to float: 'abc'" = false.
Proof. repeat split; vm_compute; reflexivity. Qed.

(** C4 (amended): when a numerical field holds a value that [float()] does
    not convert, the encoder raises, and with a model package loaded the
    handler answers with status 400 and, as [error], the text of the
    exception raised. That exception is the one the dictionary lookup or
    [float()] raised on the value of a field; for a string that is not a
    number its text is "could not convert string to float: " followed by
    the [repr] of the string, so the error carries the offending value and
    not the name of the field. *)
Theorem numeric_coercion_failure pkg m f v e0 :
  f ∈ numerical_features -> m !! f = Some v -> py_float v = Raise e0 ->
  (exists e,
      preprocess_input (JObj m) = Raise e
      /\ predict (Some pkg) (Ok (JObj m)) = (Failure (str_exc e), 400)
      /\ exists g w, m !! g = Some w
           /\ (py_float w = Raise e
               \/ exists mapping, dict_get mapping (lookup_value g w) 0 = Raise e))
  /\ (forall s, v = JStr s ->
        e0 = ValueError ("could not convert string to float: " +:+ py_repr s)).
Proof.
  intros Hf Hv Hraise. split.
  - destruct (preprocess_input (JObj m)) as [vec|e] eqn:E.
    + assert (Hruns : exists vec, preprocess_input (JObj m) = Ok vec) by eauto.
      apply preprocess_input_runs in Hruns as [_ Hn].
      specialize (Hn f v Hf Hv). rewrite Hraise in Hn. discriminate.
    + exists e. split; [reflexivity |]. split.
      * apply predict_encoder_raises; [discriminate | exact E].
      * destruct (preprocess_input_Raise _ _ E)
          as [(g & mp & w & _ & Hw & Hr) | (g & w & _ & Hw & Hr)]; eauto 6.
  - intros s ->. simpl in Hraise.
    destruct (float_of_string s); [discriminate |]. injection Hraise as <-. reflexivity.
Qed.

Lemma numeric_coercion_failure_witness :
  exists e,
    preprocess_input (JObj (<["fee" := JStr "abc"]> ∅)) = Raise e
    /\ predict (Some example_package) (Ok (JObj (<["fee" := JStr "abc"]> ∅)))
       = (Failure (str_exc e), 400).
Proof.
  destruct (numeric_coercion_failure example_package (<["fee" := JStr "abc"]> ∅)
              "fee" (JStr "abc")
              (ValueError "could not convert string to float: 'abc'")
              ltac:(by_evaluation) eq_refl eq_refl) as [(e & H1 & H2 & _) _].
  exists e. split; [exact H1 | exact H2].
Defined.

(* ===================================================================== *)
(** ** Further properties: the order of binary64 numbers *)
(* ===================================================================== *)

Ltac order_cases :=
  repeat match goal with
  | H : context [Pos.compare_cont Eq ?a ?b] |- _ =>
      change (Pos.compare_cont Eq a b) with (Pos.compare a b) in H
  | |- context [Pos.compare_cont Eq ?a ?b] =>
      change (Pos.compare_cont Eq a b) with (Pos.compare a b)
  | H : context [Z.compare ?a ?b] |- _ =>
      destruct (Z.compare_spec a b); simpl in H
  | H : context [Pos.compare ?a ?b] |- _ =>
      destruct (Pos.compare_spec a b); simpl in H
  | |- context [Z.compare ?a ?b] => destruct (Z.compare_spec a b); simpl
  | |- context [Pos.compare ?a ?b] => destruct (Pos.compare_spec a b); simpl
  end.

Lemma SFleb_trans x y z :
  SFleb x y = true -> SFleb y z = true -> SFleb x z = true.
Proof.
  unfold SFleb, SFcompare.
  destruct x as [sx|sx| |sx mx ex], y as [sy|sy| |sy my ey],
           z as [sz|sz| |sz mz ez];
    try destruct sx; try destruct sy; try destruct sz; simpl;
    try discriminate; try reflexivity; intros H1 H2;
    order_cases; try discriminate; try reflexivity; subst; try lia.
Qed.

(** [<=] on floats is transitive (a NaN is below and above nothing). *)
Lemma float_leb_trans x y z :
  PrimFloat.leb x y = true -> PrimFloat.leb y z = true ->
  PrimFloat.leb x z = true.
Proof. rewrite !leb_spec. apply SFleb_trans. Qed.

(** A cut-point reached by [p] is reached by every [q] above [p]. *)
Lemma cut_point_upward c p q :
  PrimFloat.leb p q = true -> PrimFloat.leb c p = true ->
  PrimFloat.leb c q = true.
Proof. intros Hpq Hcp. exact (float_leb_trans c p q Hcp Hpq). Qed.

(* ===================================================================== *)
(** ** Further properties: risk levels and recommendations *)
(* ===================================================================== *)

(** X1: the risk level never goes down when the probability goes up: for
    [p <= q] the level of [q] stands at or above the level of [p] in the
    order MINIMAL, LOW, MEDIUM, HIGH, CRITICAL; and a probability that
    reaches a threshold is followed there by every higher one. *)
Theorem risk_level_monotone p q :
  PrimFloat.leb p q = true ->
  (level_rank (fst (risk_band p)) <= level_rank (fst (risk_band q)))%nat
  /\ forall threshold,
       PrimFloat.leb threshold p = true -> PrimFloat.leb threshold q = true.
Proof.
  intros Hpq. split; [| intros t; apply cut_point_upward, Hpq].
  assert (Hup : forall c, PrimFloat.leb c p = true -> PrimFloat.leb c q = true)
    by (intros c; apply cut_point_upward, Hpq).
  unfold risk_band.
  destruct (PrimFloat.leb 0.7 p) eqn:E7;
    [rewrite (Hup _ E7) |
     destruct (PrimFloat.leb 0.5 p) eqn:E5;
       [rewrite (Hup _ E5) |
        destruct (PrimFloat.leb 0.3 p) eqn:E3;
          [rewrite (Hup _ E3) |
           destruct (PrimFloat.leb 0.1 p) eqn:E1; [rewrite (Hup _ E1) |]]]];
    repeat match goal with
    | |- context [PrimFloat.leb ?c q] => destruct (PrimFloat.leb c q)
    end;
    vm_compute; lia.
Qed.

Lemma risk_level_monotone_witness :
  PrimFloat.leb 0.2 0.6 = true
  /\ (level_rank (fst (risk_band 0.2)) <= level_rank (fst (risk_band 0.6)))%nat.
Proof.
  split; [reflexivity |].
  exact (proj1 (risk_level_monotone 0.2 0.6 eq_refl)).
Defined.

(** The level and the colour [risk_band] gives are one of five pairs. *)
Lemma risk_band_cases p :
  risk_band p ∈ [ ("CRITICAL", "#dc2626"); ("HIGH", "#ea580c");
                  ("MEDIUM", "#f59e0b"); ("LOW", "#84cc16");
                  ("MINIMAL", "#22c55e") ].
Proof.
  unfold risk_band.
  destruct (PrimFloat.leb 0.7 p); [at_position 0%nat |].
  destruct (PrimFloat.leb 0.5 p); [at_position 1%nat |].
  destruct (PrimFloat.leb 0.3 p); [at_position 2%nat |].
  destruct (PrimFloat.leb 0.1 p); [at_position 3%nat | at_position 4%nat].
Qed.

(** What a response with status 200 comes from. *)
Lemma predict_Success mp req pred st :
  predict mp req = (Success pred, st) ->
  st = 200
  /\ exists pkg clf data vec p,
       mp = Some pkg /\ model pkg = Some clf /\ req = Ok data /\ data <> JNull
       /\ preprocess_input data = Ok vec /\ predict_proba clf vec = Ok p
       /\ pred = {| fraud_probability := py_round2 (p * 100);
                    is_fraud_prediction :=
                      PrimFloat.leb (default 0.5%float (best_threshold pkg)) p;
                    risk_level := fst (risk_band p);
                    risk_color := snd (risk_band p);
                    thresholds_best :=
                      py_round2 (default 0.5%float (best_threshold pkg) * 100);
                    thresholds_default :=
                      py_round2 (default 0.5%float (default_threshold pkg) * 100);
                    recommended := get_recommendation (fst (risk_band p)) p |}.
Proof.
  unfold predict, predict_try. intros H.
  destruct req as [data|e]; simpl in H; [| discriminate].
  assert (Hd : data <> JNull) by (intros ->; discriminate).
  assert (E : forall k : result (body * Z),
             match data with
             | JNull => Ok (Failure "No JSON data received", 400)
             | _ => k
             end = k)
    by (intros k; destruct data; [contradiction | ..]; reflexivity).
  rewrite E in H. destruct mp as [pkg|]; [| discriminate].
  destruct (preprocess_input data) as [vec|e] eqn:Hv; simpl in H; [| discriminate].
  destruct (model pkg) as [clf|] eqn:Hm; simpl in H; [| discriminate].
  destruct (predict_proba clf vec) as [p|e] eqn:Hp; simpl in H; [| discriminate].
  destruct (risk_band p) as [level color] eqn:Hb. injection H as <- <-.
  split; [reflexivity |]. exists pkg, clf, data, vec, p.
  split; [reflexivity |]. split; [exact Hm |]. split; [reflexivity |].
  split; [exact Hd |]. split; [exact Hv |]. split; [exact Hp |].
  rewrite ?Hb. reflexivity.
Qed.

(** X2: every response with status 200 is well formed: its level and colour
    are one of the five pairs of [predict], and its recommendation is the
    record [get_recommendation] holds for that very level, so the fallback
    to the MEDIUM record is never taken by [predict]; a level the table
    does not hold gets the MEDIUM record. *)
Theorem success_response_well_formed mp req pred st :
  predict mp req = (Success pred, st) ->
  (risk_level pred, risk_color pred)
    ∈ [ ("CRITICAL", "#dc2626"); ("HIGH", "#ea580c"); ("MEDIUM", "#f59e0b");
        ("LOW", "#84cc16"); ("MINIMAL", "#22c55e") ]
  /\ recommendation_for (risk_level pred) = Some (recommended pred)
  /\ (forall level p,
        recommendation_for level = None ->
        Some (get_recommendation level p) = recommendation_for "MEDIUM").
Proof.
  intros H. destruct (predict_Success _ _ _ _ H)
    as (_ & pkg & clf & data & vec & p & _ & _ & _ & _ & _ & _ & ->). simpl.
  pose proof (risk_band_cases p) as Hb.
  split; [| split].
  - destruct (risk_band p). exact Hb.
  - destruct (risk_band p) as [level color]. simpl.
    repeat (apply elem_of_cons in Hb as [[= -> ->] | Hb]; [reflexivity |]).
    inversion Hb.
  - intros level q Hl. unfold get_recommendation. rewrite Hl. reflexivity.
Qed.

Lemma success_response_well_formed_witness :
  exists pred,
    predict (Some example_package) (Ok (JObj ∅)) = (Success pred, 200)
    /\ recommendation_for (risk_level pred) = Some (recommended pred).
Proof.
  destruct (predict (Some example_package) (Ok (JObj ∅))) as [[pred|msg] st] eqn:E;
    pose proof E as E'; vm_compute in E'; [| discriminate].
  assert (st = 200) as -> by congruence.
  exists pred. split; [reflexivity |].
  apply (success_response_well_formed _ _ pred 200 E).
Defined.

(** X3: when the model package holds no [best_threshold], so that 0.5 is
    used, the fraud verdict of a response agrees with its risk level: the
    verdict is positive exactly for the levels HIGH and CRITICAL. *)
Theorem verdict_agrees_with_level_by_default pkg req pred st :
  predict (Some pkg) req = (Success pred, st) ->
  best_threshold pkg = None ->
  (is_fraud_prediction pred = true
   <-> risk_level pred = "HIGH" \/ risk_level pred = "CRITICAL").
Proof.
  intros H Hbest. destruct (predict_Success _ _ _ _ H)
    as (_ & pkg' & clf & data & vec & p & [= <-] & _ & _ & _ & _ & _ & ->).
  simpl. rewrite Hbest. simpl. unfold risk_band.
  destruct (PrimFloat.leb 0.7 p) eqn:E7.
  - rewrite (float_leb_trans 0.5 0.7 p eq_refl E7). simpl. tauto.
  - destruct (PrimFloat.leb 0.5 p); [simpl; tauto |].
    destruct (PrimFloat.leb 0.3 p); [| destruct (PrimFloat.leb 0.1 p)]; simpl;
      (split; [discriminate | intros [X | X]; discriminate X]).
Qed.

Lemma verdict_agrees_with_level_by_default_witness :
  exists pred,
    predict (Some {| model := Some (constant_classifier 0.6);
                     best_threshold := None; default_threshold := None |})
            (Ok (JObj ∅)) = (Success pred, 200)
    /\ is_fraud_prediction pred = true /\ risk_level pred = "HIGH".
Proof.
  destruct (predict (Some {| model := Some (constant_classifier 0.6);
                             best_threshold := None; default_threshold := None |})
                    (Ok (JObj ∅))) as [[pred|msg] st] eqn:E;
    pose proof E as E'; vm_compute in E'; [| discriminate].
  assert (st = 200) as -> by congruence.
  exists pred. split; [reflexivity |].
  assert (L : risk_level pred = "HIGH") by (injection E' as <-; reflexivity).
  split; [| exact L].
  apply (verdict_agrees_with_level_by_default _ _ pred 200 E eq_refl).
  left. exact L.
Defined.

(** X4: the default threshold of the model package is reported and nothing
    more: two packages that differ in it alone answer a request with the
    same failure, or with successes that differ in [thresholds.default]
    alone; the verdict follows the best threshold. *)
Theorem default_threshold_only_reported clf best d d' req :
  (forall msg st,
     predict (Some {| model := clf; best_threshold := best;
                      default_threshold := d |}) req = (Failure msg, st) ->
     predict (Some {| model := clf; best_threshold := best;
                      default_threshold := d' |}) req = (Failure msg, st))
  /\ (forall pred st,
        predict (Some {| model := clf; best_threshold := best;
                         default_threshold := d |}) req = (Success pred, st) ->
        predict (Some {| model := clf; best_threshold := best;
                         default_threshold := d' |}) req
        = (Success {| fraud_probability := fraud_probability pred;
                      is_fraud_prediction := is_fraud_prediction pred;
                      risk_level := risk_level pred;
                      risk_color := risk_color pred;
                      thresholds_best := thresholds_best pred;
                      thresholds_default := py_round2 (default 0.5%float d' * 100);
                      recommended := recommended pred |}, st)).
Proof.
  unfold predict, predict_try.
  destruct req as [data|e]; simpl; [| split; intros; [assumption | discriminate]].
  destruct data; simpl; try (split; intros; [assumption | discriminate]);
    (match goal with
     | |- context [preprocess_input ?x] =>
         destruct (preprocess_input x) as [vec|e]; simpl;
         [| split; intros; [assumption | discriminate]]
     end);
    (destruct clf as [c|]; simpl; [| split; intros; [assumption | discriminate]]);
    (destruct (predict_proba c vec) as [p|e]; simpl;
     [| split; intros; [assumption | discriminate]]);
    destruct (risk_band p) as [level color];
    (split; [intros msg st [=] | intros pred st [= <- <-]; reflexivity]).
Qed.

(* ===================================================================== *)
(** ** Further properties: the handler's answers *)
(* ===================================================================== *)

(** On a value that is not a dictionary a step of the categorical loop
    changes nothing or raises. *)
Lemma encode_categorical_non_object data p item :
  (forall m, data <> JObj m) ->
  encode_categorical data p item = Ok p
  \/ exists e, encode_categorical data p item = Raise e.
Proof.
  intros Hd. destruct item as [f mapping]. unfold encode_categorical.
  destruct data as [|b|z|x|s|l|m]; simpl; eauto.
  - destruct (is_substring f s); simpl; eauto.
  - destruct (existsb _ l); simpl; eauto.
  - destruct (Hd m eq_refl).
Qed.

Lemma categorical_loop_non_object data l p :
  (forall m, data <> JObj m) ->
  for_each (encode_categorical data) l p = Ok p
  \/ exists e, for_each (encode_categorical data) l p = Raise e.
Proof.
  intros Hd. induction l as [|item l IH]; [left; reflexivity |].
  rewrite for_each_cons.
  destruct (encode_categorical_non_object data p item Hd) as [-> | [e ->]];
    simpl; eauto.
Qed.

Lemma preprocess_input_non_object data :
  (forall m, data <> JObj m) -> exists e, preprocess_input data = Raise e.
Proof.
  intros Hd. unfold preprocess_input, build_processed.
  destruct (categorical_loop_non_object data CATEGORICAL_MAPPINGS ∅ Hd)
    as [-> | [e ->]]; [| eauto].
  destruct data as [|b|z|x|s|l|m]; simpl; eauto. destruct (Hd m eq_refl).
Qed.

(** X5: a body that is a JSON value but not an object is never encoded:
    the encoder raises on it, and with a model package loaded the handler
    answers it with status 400, whatever the package. *)
Theorem non_object_body_is_refused data :
  (forall m, data <> JObj m) ->
  (exists e, preprocess_input data = Raise e)
  /\ forall pkg, exists msg,
       predict (Some pkg) (Ok data) = (Failure msg, 400).
Proof.
  intros Hd. destruct (preprocess_input_non_object data Hd) as [e He].
  split; [eauto |]. intros pkg.
  destruct data as [|b|z|x|s|l|m];
    try (exists (str_exc e); apply predict_encoder_raises; [discriminate | exact He]).
  exists "No JSON data received". reflexivity.
Qed.

Lemma non_object_body_is_refused_witness :
  exists msg,
    predict (Some example_package) (Ok (JArr [JStr "home_country"]))
    = (Failure msg, 400).
Proof.
  apply (non_object_body_is_refused (JArr [JStr "home_country"])).
  intros m. discriminate.
Defined.

(** The five ways [predict] answers. *)
Lemma predict_cases mp req :
  (exists e, req = Raise e /\ predict mp req = (Failure (str_exc e), 400))
  \/ (req = Ok JNull /\ predict mp req = (Failure "No JSON data received", 400))
  \/ (exists data, req = Ok data /\ data <> JNull /\ mp = None
        /\ predict mp req
           = (Failure "Model not loaded. Please check if the model file exists.", 500))
  \/ (exists data pkg msg, req = Ok data /\ data <> JNull /\ mp = Some pkg
        /\ predict mp req = (Failure msg, 400))
  \/ (exists data pkg pred, req = Ok data /\ data <> JNull /\ mp = Some pkg
        /\ predict mp req = (Success pred, 200)).
Proof.
  destruct req as [data|e]; [| left; eauto].
  right. destruct (predict mp (Ok data)) as [[pred|msg] st] eqn:E.
  - destruct (predict_Success _ _ _ _ E)
      as (-> & pkg & clf & d & vec & p & -> & _ & [= <-] & Hd & _).
    right. right. right. exists data, pkg, pred. auto.
  - unfold predict, predict_try in E. simpl in E.
    destruct data as [|b|z|x|s|l|m];
      try (injection E as <- <-; left; split; reflexivity);
      (right; destruct mp as [pkg|];
       [ right; left; eexists _, pkg, msg;
         split; [reflexivity |]; split; [discriminate |]; split; [reflexivity |];
         match type of E with
         | context [preprocess_input ?x] =>
             destruct (preprocess_input x) as [vec|e]; simpl in E;
             [ destruct (model pkg) as [clf|]; simpl in E;
               [ destruct (predict_proba clf vec) as [p|e]; simpl in E;
                 [ destruct (risk_band p); discriminate
                 | injection E as <- <-; reflexivity ]
               | injection E as <- <-; reflexivity ]
             | injection E as <- <-; reflexivity ]
         end
       | left; eexists; split; [reflexivity |]; split; [discriminate |];
         split; [reflexivity |]; injection E as <- <-; reflexivity ]).
Qed.

(** X6: the handler answers with status 200, 400 or 500 and no other; the
    status is 200 exactly when the body is a prediction, and 500 exactly
    when no model package is loaded and the request body reads as a JSON
    value other than null. *)
Theorem predict_status_codes mp req :
  (snd (predict mp req) = 200 \/ snd (predict mp req) = 400
   \/ snd (predict mp req) = 500)
  /\ (snd (predict mp req) = 200
      <-> exists pred, fst (predict mp req) = Success pred)
  /\ (snd (predict mp req) = 500
      <-> mp = None /\ exists data, req = Ok data /\ data <> JNull).
Proof.
  destruct (predict_cases mp req)
    as [(e & -> & H) | [(-> & H) | [(data & -> & Hd & -> & H)
       | [(data & pkg & msg & -> & Hd & -> & H)
       | (data & pkg & pred & -> & Hd & -> & H)]]]];
    rewrite H; simpl; (split; [auto | split; split]).
  - discriminate.
  - intros [pred X]. discriminate X.
  - discriminate.
  - intros [_ (d & X & _)]. discriminate X.
  - discriminate.
  - intros [pred X]. discriminate X.
  - discriminate.
  - intros [_ (d & [= <-] & Hn)]. contradiction.
  - discriminate.
  - intros [pred X]. discriminate X.
  - intros _. eauto.
  - reflexivity.
  - discriminate.
  - intros [pred X]. discriminate X.
  - discriminate.
  - intros [X _]. discriminate X.
  - eauto.
  - reflexivity.
  - discriminate.
  - intros [X _]. discriminate X.
Qed.

(** X7: failures are reported in the order of the handler's steps, each
    with status 400 and the text of its exception: an exception of the
    encoder whatever the model package holds, then a package without
    ['model'], then an exception of the classifier. *)
Theorem failures_reported_in_order data :
  data <> JNull ->
  (forall e pkg, preprocess_input data = Raise e ->
     predict (Some pkg) (Ok data) = (Failure (str_exc e), 400))
  /\ (forall vec pkg, preprocess_input data = Ok vec -> model pkg = None ->
        predict (Some pkg) (Ok data) = (Failure "'model'", 400))
  /\ (forall vec pkg clf e,
        preprocess_input data = Ok vec -> model pkg = Some clf ->
        predict_proba clf vec = Raise e ->
        predict (Some pkg) (Ok data) = (Failure (str_exc e), 400)).
Proof.
  intros Hd.
  assert (E : forall k : result (body * Z),
             match data with
             | JNull => Ok (Failure "No JSON data received", 400)
             | _ => k
             end = k)
    by (intros k; destruct data; [contradiction | ..]; reflexivity).
  split; [| split].
  - intros e pkg He. apply predict_encoder_raises; assumption.
  - intros vec pkg Hv Hm. unfold predict, predict_try. simpl.
    rewrite E, Hv, Hm. reflexivity.
  - intros vec pkg clf e Hv Hm Hp. unfold predict, predict_try. simpl.
    rewrite E, Hv, Hm. simpl. rewrite Hp. reflexivity.
Qed.

Lemma failures_reported_in_order_witness :
  predict (Some {| model := None; best_threshold := None;
                   default_threshold := None |})
          (Ok (JObj (<["fee" := JStr "abc"]> ∅)))
  = (Failure "could not convert string to float: 'abc'", 400).
Proof.
  refine (proj1 (failures_reported_in_order (JObj (<["fee" := JStr "abc"]> ∅)) _)
            (ValueError "could not convert string to float: 'abc'") _ _).
  - discriminate.
  - vm_compute. reflexivity.
Defined.

(* ===================================================================== *)
(** ** Further properties: the encoder *)
(* ===================================================================== *)

Lemma for_each_app {A S} (body : S -> A -> result S) l1 l2 s :
  for_each body (l1 ++ l2) s = for_each body l1 s ≫= for_each body l2.
Proof.
  revert s. induction l1 as [|a l1 IH]; intros s; [reflexivity |].
  simpl. destruct (body s a); [apply IH | reflexivity].
Qed.

Lemma categorical_loop_runs m l p :
  (forall f mapping v, (f, mapping) ∈ l -> m !! f = Some v ->
     hashable (lookup_value f v) = true) ->
  exists p', for_each (encode_categorical (JObj m)) l p = Ok p'.
Proof.
  revert p. induction l as [|[g mapping] l IH]; intros p H.
  - eexists. reflexivity.
  - rewrite for_each_cons, encode_categorical_dict.
    destruct (m !! g) as [v|] eqn:E.
    + rewrite dict_get_hashable by (eapply H; [left | exact E]). simpl.
      apply IH. intros; eapply H; [right |]; eassumption.
    + simpl. apply IH. intros; eapply H; [right |]; eassumption.
Qed.

(** Every name the encoder reads is a name of [FEATURE_ORDER]. *)
Lemma read_fields_in_order :
  Forall (fun f => f ∈ FEATURE_ORDER)
    (CATEGORICAL_MAPPINGS.*1 ++ "location_mismatch" :: numerical_features).
Proof. by_evaluation. Qed.

(** X8: the encoder reads no field but the 25 of [FEATURE_ORDER]: a request
    and the same request with one more field of another name are encoded
    alike, vector or exception, and the handler answers them alike. *)
Theorem unknown_fields_are_ignored m k v :
  k ∉ FEATURE_ORDER ->
  preprocess_input (JObj (<[k := v]> m)) = preprocess_input (JObj m)
  /\ forall mp, predict mp (Ok (JObj (<[k := v]> m))) = predict mp (Ok (JObj m)).
Proof.
  intros Hk.
  assert (Hne : forall g,
             g ∈ (CATEGORICAL_MAPPINGS.*1 ++ "location_mismatch" :: numerical_features)%list ->
             k <> g).
  { intros g Hg ->. apply Hk.
    pose proof read_fields_in_order as H. rewrite Forall_forall in H. auto. }
  assert (E : preprocess_input (JObj (<[k := v]> m)) = preprocess_input (JObj m)).
  { apply preprocess_input_ext.
    - intros g Hg. apply lookup_insert_ne, Hne, elem_of_app. left. exact Hg.
    - apply lookup_insert_ne, Hne, elem_of_app. right. left.
    - intros g Hg. unfold raw_number. rewrite lookup_insert_ne; [reflexivity |].
      apply Hne, elem_of_app. right. right. exact Hg. }
  split; [exact E |]. intros mp. unfold predict, predict_try. simpl.
  rewrite E. reflexivity.
Qed.

Lemma unknown_fields_are_ignored_witness :
  preprocess_input (JObj (<["note" := JStr "urgent"]> (<["fee" := JInt 9]> ∅)))
  = preprocess_input (JObj (<["fee" := JInt 9]> ∅)).
Proof.
  apply (unknown_fields_are_ignored (<["fee" := JInt 9]> ∅) "note" (JStr "urgent")).
  by_evaluation.
Defined.

(** Requests whose categorical steps, location flag and raw numbers agree
    are encoded alike. *)
Lemma categorical_loop_same_steps m m' l p :
  (forall item q, item ∈ l ->
     encode_categorical (JObj m') q item = encode_categorical (JObj m) q item) ->
  for_each (encode_categorical (JObj m')) l p
  = for_each (encode_categorical (JObj m)) l p.
Proof.
  revert p. induction l as [|item l IH]; intros p H; [reflexivity |].
  rewrite !for_each_cons, (H item p ltac:(left)).
  destruct (encode_categorical (JObj m) p item); simpl; [| reflexivity].
  apply IH. intros; apply H; right; assumption.
Qed.

Lemma preprocess_input_same_steps m m' :
  (forall item q, item ∈ CATEGORICAL_MAPPINGS ->
     encode_categorical (JObj m') q item = encode_categorical (JObj m) q item) ->
  m' !! "location_mismatch" = m !! "location_mismatch" ->
  (forall g, g ∈ numerical_features -> raw_number m' g = raw_number m g) ->
  preprocess_input (JObj m') = preprocess_input (JObj m).
Proof.
  intros Hc Hl Hn. unfold preprocess_input.
  rewrite !build_processed_dict, (categorical_loop_same_steps m m' _ _ Hc).
  unfold location_flag. rewrite Hl.
  destruct (for_each (encode_categorical (JObj m)) CATEGORICAL_MAPPINGS ∅);
    [| reflexivity].
  cbn [mbind result_bind].
  rewrite (numerical_loop_ext m m' _ _ Hn). reflexivity.
Qed.

(** Two values of one categorical field that get the same code are
    encoded alike. *)
Lemma same_code_same_encoding m c mapping v w code :
  (c, mapping) ∈ CATEGORICAL_MAPPINGS ->
  dict_get mapping (lookup_value c v) 0 = Ok code ->
  dict_get mapping (lookup_value c w) 0 = Ok code ->
  preprocess_input (JObj (<[c := v]> m)) = preprocess_input (JObj (<[c := w]> m)).
Proof.
  intros Hin Hv Hw.
  assert (Hc : c ∈ CATEGORICAL_MAPPINGS.*1)
    by (apply (list_elem_of_fmap_2 fst) in Hin; exact Hin).
  destruct (categorical_keys_apart c Hc) as (Hl & Hnum & _).
  apply preprocess_input_same_steps.
  - intros [g mp] q Hg. rewrite !encode_categorical_dict.
    destruct (decide (c = g)) as [<- | Hne].
    + assert (mp = mapping) as ->.
      { pose proof categorical_keys_NoDup as Hnd.
        apply list_elem_of_lookup in Hg as [i Hi], Hin as [j Hj].
        assert (i = j).
        { apply (NoDup_lookup _ i j c Hnd); rewrite list_lookup_fmap.
          - rewrite Hi. reflexivity.
          - rewrite Hj. reflexivity. }
        subst. congruence. }
      rewrite !lookup_insert_eq, Hv, Hw. reflexivity.
    + rewrite !lookup_insert_ne by exact Hne. reflexivity.
  - rewrite !lookup_insert_ne by congruence. reflexivity.
  - intros g Hg. unfold raw_number.
    rewrite !lookup_insert_ne by (intros ->; contradiction). reflexivity.
Qed.

(** X9: a token the dictionary of a categorical field does not hold is
    encoded exactly as the token of code 0 of that field is (an unknown
    country as "CA", an unknown channel as "ATM"): the two requests get the
    same vector or the same exception. *)
Theorem unknown_token_encoded_as_first_token m c mapping v w :
  (c, mapping) ∈ CATEGORICAL_MAPPINGS ->
  hashable v = true -> hashable w = true ->
  dict_find mapping (lookup_value c v) = None ->
  dict_find mapping (lookup_value c w) = Some 0 ->
  preprocess_input (JObj (<[c := v]> m)) = preprocess_input (JObj (<[c := w]> m)).
Proof.
  intros Hin Hv Hw Fv Fw.
  apply (same_code_same_encoding m c mapping v w 0 Hin).
  - rewrite dict_get_hashable by (apply lookup_value_hashable, Hv).
    rewrite Fv. reflexivity.
  - rewrite dict_get_hashable by (apply lookup_value_hashable, Hw).
    rewrite Fw. reflexivity.
Qed.

Lemma unknown_token_encoded_as_first_token_witness :
  preprocess_input (JObj (<["home_country" := JStr "ZZ"]> ∅))
  = preprocess_input (JObj (<["home_country" := JStr "CA"]> ∅)).
Proof.
  apply (unknown_token_encoded_as_first_token ∅ "home_country"
           [(LStr "CA", 0); (LStr "UK", 1); (LStr "US", 2)]
           (JStr "ZZ") (JStr "CA") ltac:(at_position 0%nat)
           eq_refl eq_refl eq_refl eq_refl).
Defined.

(** What a dictionary finds is one of its entries, under a key equal to
    the value looked up. *)
Lemma dict_find_Some mapping v code :
  dict_find mapping v = Some code ->
  exists key, (key, code) ∈ mapping /\ eq_literal v key = true.
Proof.
  unfold dict_find. destruct (find _ mapping) as [[key c]|] eqn:E; [| discriminate].
  intros [= <-]. apply find_some in E as [Hin Heq].
  exists key. split; [apply list_elem_of_In; exact Hin | exact Heq].
Qed.

Lemma eq_literal_str s key : eq_literal (JStr s) key = true -> key = LStr s.
Proof.
  destruct key as [t|b|n]; simpl; try discriminate.
  rewrite String.eqb_eq. intros ->. reflexivity.
Qed.

(** In every dictionary of the application the codes are 0, 1, 2, ... in
    the order of the entries. *)
Lemma codes_are_positions :
  Forall (fun item => (snd item).*2 = seqZ 0 (Z.of_nat (length (snd item))))
    CATEGORICAL_MAPPINGS.
Proof. by_evaluation. Qed.

Lemma code_in_range c mapping key code :
  (c, mapping) ∈ CATEGORICAL_MAPPINGS -> (key, code) ∈ mapping ->
  0 <= code < Z.of_nat (length mapping).
Proof.
  intros Hin Hk. pose proof codes_are_positions as H.
  rewrite Forall_forall in H. specialize (H _ Hin). simpl in H.
  apply (list_elem_of_fmap_2 snd) in Hk. rewrite H in Hk. simpl in Hk.
  apply elem_of_seqZ in Hk. lia.
Qed.

(** X10: the value encoded for a categorical field is always a code of its
    dictionary: a whole number from 0 up to, and not including, the number
    of tokens of the field (at most 8, for [dest_currency]). *)
Theorem categorical_codes_in_range m vec i c mapping :
  preprocess_input (JObj m) = Ok vec ->
  (c, mapping) ∈ CATEGORICAL_MAPPINGS -> FEATURE_ORDER !! i = Some c ->
  exists code,
    0 <= code < Z.of_nat (length mapping) /\ code <= 8
    /\ vec !! i = Some (np_float64 (PInt code)).
Proof.
  intros H Hin Hi.
  assert (Hlen : 0 < Z.of_nat (length mapping) <= 9).
  { assert (K : Forall (fun item => 0 < Z.of_nat (length (snd item)) <= 9)
                  CATEGORICAL_MAPPINGS) by by_evaluation.
    rewrite Forall_forall in K. exact (K _ Hin). }
  destruct (preprocess_input_Ok _ _ H) as (p & Hp & ->).
  rewrite (feature_array_lookup p i c Hi).
  destruct (m !! c) as [v|] eqn:Hv.
  - destruct (processed_categorical_present m p Hp c mapping v Hin Hv)
      as (code & Hc & ->).
    exists code. simpl. split; [| split; [| reflexivity]].
    + unfold dict_get in Hc. destruct (hashable _); [| discriminate].
      injection Hc as <-.
      destruct (dict_find mapping (lookup_value c v)) as [k|] eqn:F; simpl; [| lia].
      destruct (dict_find_Some _ _ _ F) as (key & Hk & _).
      exact (code_in_range c mapping key k Hin Hk).
    + unfold dict_get in Hc. destruct (hashable _); [| discriminate].
      injection Hc as <-.
      destruct (dict_find mapping (lookup_value c v)) as [k|] eqn:F; simpl; [| lia].
      destruct (dict_find_Some _ _ _ F) as (key & Hk & _).
      pose proof (code_in_range c mapping key k Hin Hk). lia.
  - assert (Hc : c ∈ CATEGORICAL_MAPPINGS.*1)
      by (apply (list_elem_of_fmap_2 fst) in Hin; exact Hin).
    rewrite (processed_categorical_absent m p Hp c Hc Hv).
    exists 0. simpl. split; [lia | split; [lia | reflexivity]].
Qed.

Lemma categorical_codes_in_range_witness :
  exists vec code,
    preprocess_input (JObj (<["dest_currency" := JStr "USD"]> ∅)) = Ok vec
    /\ 0 <= code <= 8 /\ vec !! 2%nat = Some (np_float64 (PInt code)).
Proof.
  destruct (preprocess_input (JObj (<["dest_currency" := JStr "USD"]> ∅)))
    as [vec|e] eqn:E; [| vm_compute in E; discriminate].
  destruct (categorical_codes_in_range _ vec 2%nat "dest_currency"
              [(LStr "CAD", 0); (LStr "CNY", 1); (LStr "EUR", 2); (LStr "GBP", 3);
               (LStr "INR", 4); (LStr "MXN", 5); (LStr "NGN", 6); (LStr "PHP", 7);
               (LStr "USD", 8)] E ltac:(at_position 2%nat) eq_refl)
    as (code & [H0 _] & H8 & Hv).
  exists vec, code. split; [reflexivity |]. split; [lia | exact Hv].
Defined.

(** X11: the encoding loses nothing on the tokens a categorical field
    knows: two strings that the dictionary of a field gives the same code
    are the same string. *)
Theorem recognised_tokens_have_distinct_codes c mapping s t code :
  (c, mapping) ∈ CATEGORICAL_MAPPINGS ->
  dict_find mapping (JStr s) = Some code ->
  dict_find mapping (JStr t) = Some code ->
  s = t.
Proof.
  intros Hin Hs Ht.
  destruct (dict_find_Some _ _ _ Hs) as (ks & Hks & Es).
  destruct (dict_find_Some _ _ _ Ht) as (kt & Hkt & Et).
  apply eq_literal_str in Es, Et. subst.
  assert (Hnd : NoDup mapping.*2).
  { pose proof codes_are_positions as H. rewrite Forall_forall in H.
    specialize (H _ Hin). simpl in H. rewrite H. apply NoDup_seqZ. }
  apply list_elem_of_lookup in Hks as [i Hi], Hkt as [j Hj].
  assert (i = j).
  { apply (NoDup_lookup _ i j code Hnd); rewrite list_lookup_fmap.
    - rewrite Hi. reflexivity.
    - rewrite Hj. reflexivity. }
  subst. congruence.
Qed.

Lemma recognised_tokens_have_distinct_codes_witness :
  dict_find [(LStr "CAD", 0); (LStr "GBP", 1); (LStr "USD", 2)] (JStr "GBP")
  = Some 1
  /\ "GBP" = "GBP".
Proof.
  split; [reflexivity |].
  apply (recognised_tokens_have_distinct_codes "source_currency"
           [(LStr "CAD", 0); (LStr "GBP", 1); (LStr "USD", 2)] "GBP" "GBP" 1
           ltac:(at_position 1%nat) eq_refl eq_refl).
Defined.

(** X12: when several numerical fields hold values [float()] refuses, the
    exception of the encoder is that of the first of them in the order of
    the numerical loop, provided the categorical loop came through. *)
Theorem first_numerical_failure_is_reported m before f after e :
  categorical_ok m ->
  numerical_features = (before ++ f :: after)%list ->
  (forall g, g ∈ before -> is_ok (py_float (raw_number m g)) = true) ->
  py_float (raw_number m f) = Raise e ->
  preprocess_input (JObj m) = Raise e.
Proof.
  intros Hc Hsplit Hbefore Hf. unfold preprocess_input.
  rewrite build_processed_dict.
  destruct (categorical_loop_runs m CATEGORICAL_MAPPINGS ∅ Hc) as [p1 ->].
  cbn [mbind result_bind]. rewrite Hsplit, for_each_app.
  assert (Hrun : forall l p,
             (forall g, g ∈ l -> is_ok (py_float (raw_number m g)) = true) ->
             exists p', for_each (encode_numerical (JObj m)) l p = Ok p').
  { induction l as [|g l IH]; intros p H; [eexists; reflexivity |].
    rewrite for_each_cons, encode_numerical_dict.
    pose proof (H g ltac:(left)) as Hg.
    destruct (py_float (raw_number m g)); [| discriminate]. simpl.
    apply IH. intros; apply H; right; assumption. }
  destruct (Hrun before (<["location_mismatch" := PInt (location_flag m)]> p1)
              Hbefore) as [p2 ->].
  cbn [mbind result_bind].
  rewrite for_each_cons, encode_numerical_dict, Hf. reflexivity.
Qed.

Lemma first_numerical_failure_is_reported_witness :
  preprocess_input
    (JObj (<["fee" := JStr "abc"]> (<["amount_usd" := JStr "x"]> ∅)))
  = Raise (ValueError "could not convert string to float: 'x'").
Proof.
  apply (first_numerical_failure_is_reported _ ["amount_src"] "amount_usd"
           ["fee"; "exchange_rate_src_to_dest"; "ip_risk_score";
            "account_age_days"; "device_trust_score";
            "chargeback_history_count"; "risk_score_internal";
            "txn_velocity_1h"; "txn_velocity_24h"; "corridor_risk"]).
  - intros f mapping v Hin Hv.
    assert (K : Forall (fun item =>
                  (<["fee" := JStr "abc"]> (<["amount_usd" := JStr "x"]> ∅)
                     : gmap string json) !! fst item = None) CATEGORICAL_MAPPINGS)
      by (repeat constructor).
    rewrite Forall_forall in K. specialize (K _ Hin). simpl in K. congruence.
  - reflexivity.
  - intros g Hg. apply list_elem_of_singleton in Hg as ->. reflexivity.
  - reflexivity.
Defined.

(** X13: a categorical field other than [new_device] holding a value that
    does not hash makes the encoder raise the [TypeError] of the dictionary
    lookup, whatever the numerical fields hold: the categorical loop comes
    first. (The value of [new_device] is compared, not hashed: what is
    looked up for it is a boolean.) *)
Theorem categorical_failure_comes_first m c mapping v :
  (c, mapping) ∈ CATEGORICAL_MAPPINGS -> m !! c = Some v ->
  hashable (lookup_value c v) = false ->
  exists w,
    hashable w = false
    /\ preprocess_input (JObj m)
       = Raise (TypeError ("unhashable type: '" +:+ type_name w +:+ "'")).
Proof.
  intros Hin Hv Hh. unfold preprocess_input. rewrite build_processed_dict.
  destruct (for_each (encode_categorical (JObj m)) CATEGORICAL_MAPPINGS ∅)
    as [p1|e] eqn:E.
  - destruct (categorical_loop_present m _ _ _ c mapping v E
                categorical_keys_NoDup Hin Hv) as (code & Hc & _).
    unfold dict_get in Hc. rewrite Hh in Hc. discriminate.
  - destruct (categorical_loop_raise m _ _ _ E) as (g & mp & w & _ & _ & Hr).
    unfold dict_get in Hr.
    destruct (hashable (lookup_value g w)) eqn:Hw; [discriminate |].
    injection Hr as <-. exists (lookup_value g w). split; [exact Hw | reflexivity].
Qed.

Lemma categorical_failure_comes_first_witness :
  exists w,
    hashable w = false
    /\ preprocess_input
         (JObj (<["channel" := JArr []]> (<["fee" := JStr "abc"]> ∅)))
       = Raise (TypeError ("unhashable type: '" +:+ type_name w +:+ "'")).
Proof.
  apply (categorical_failure_comes_first
           (<["channel" := JArr []]> (<["fee" := JStr "abc"]> ∅)) "channel"
           [(LStr "ATM", 0); (LStr "MOBILE", 1); (LStr "WEB", 2)] (JArr [])
           ltac:(at_position 3%nat) eq_refl eq_refl).
Defined.

Lemma standard_scaling_witness :
  exists vec,
    preprocess_input (JObj (<["account_age_days" := JInt 800]> ∅)) = Ok vec
    /\ vec !! 13%nat = Some 1%float.
Proof.
  destruct (preprocess_input (JObj (<["account_age_days" := JInt 800]> ∅)))
    as [vec|e] eqn:E; [| vm_compute in E; discriminate].
  exists vec. split; [reflexivity |].
  destruct (standard_scaling _ vec 13%nat "account_age_days"
              {| mean := 500.0; std := 300.0 |} E
              ltac:(at_position 1%nat) eq_refl) as (x & Hx & Hv).
  rewrite Hv. vm_compute in Hx. injection Hx as <-. reflexivity.
Defined.

(** X15: a missing numerical field is encoded as its scaling of 0.0, which
    is not 0.0 unless the median or mean of the field is zero: a request
    without [amount_src] holds [(0 - 200.0) / 300.0] at its position, and
    one without [ip_risk_score] holds [(0 - 0.5) / 0.25], that is -2. *)
Theorem missing_scaled_field m vec i f :
  preprocess_input (JObj m) = Ok vec ->
  FEATURE_ORDER !! i = Some f -> m !! f = None ->
  (forall prm, (f, prm) ∈ ROBUST_SCALE_PARAMS ->
     vec !! i = Some ((0 - median prm) / iqr prm)%float)
  /\ (forall prm, (f, prm) ∈ STANDARD_SCALE_PARAMS ->
        vec !! i = Some ((0 - mean prm) / std prm)%float).
Proof.
  intros H Hi Hm.
  destruct (preprocess_input_Ok _ _ H) as (p & Hp & ->).
  rewrite (feature_array_lookup p i f Hi).
  assert (Hraw : py_float (raw_number m f) = Ok 0%float)
    by (unfold raw_number; rewrite Hm; reflexivity).
  split; intros prm Hin.
  - destruct (processed_robust m p Hp f prm Hin) as (x & Hx & ->).
    rewrite Hraw in Hx. injection Hx as <-.
    rewrite (robust_written_shipped f prm _ Hin). reflexivity.
  - destruct (processed_standard m p Hp f prm Hin) as (x & Hx & ->).
    rewrite Hraw in Hx. injection Hx as <-.
    rewrite (standard_written_shipped f prm _ Hin). reflexivity.
Qed.

Lemma missing_scaled_field_witness :
  exists vec,
    preprocess_input (JObj ∅) = Ok vec
    /\ vec !! 11%nat = Some (-2)%float.
Proof.
  destruct (preprocess_input (JObj ∅)) as [vec|e] eqn:E;
    [| vm_compute in E; discriminate].
  exists vec. split; [reflexivity |].
  rewrite (proj2 (missing_scaled_field ∅ vec 11%nat "ip_risk_score" E eq_refl eq_refl)
             {| mean := 0.5; std := 0.25 |} ltac:(at_position 0%nat)).
  reflexivity.
Defined.

(** X16: the two boolean-like fields do not read the same tokens: given
    the same value, [new_device] and [location_mismatch] are encoded to the
    same number, except for the string "1", which switches
    [location_mismatch] on and leaves [new_device] off. *)
Theorem boolean_fields_differ_on_text_one m vec v :
  preprocess_input (JObj m) = Ok vec ->
  m !! "new_device" = Some v -> m !! "location_mismatch" = Some v ->
  (v <> JStr "1" -> vec !! 8%nat = vec !! 10%nat)
  /\ (v = JStr "1" ->
      vec !! 8%nat = Some 0%float /\ vec !! 10%nat = Some 1%float).
Proof.
  intros H Hn Hl.
  destruct (preprocess_input_Ok _ _ H) as (p & Hp & ->).
  rewrite (feature_array_lookup p 8 "new_device" eq_refl),
    (feature_array_lookup p 10 "location_mismatch" eq_refl),
    (processed_location_mismatch m p Hp).
  destruct (processed_categorical_present m p Hp "new_device"
              [(LBool false, 0); (LBool true, 1)] v ltac:(at_position 6%nat) Hn)
    as (code & Hc & ->).
  change (lookup_value "new_device" v)
    with (JBool (eq_str v "true" || eq_int v 1)) in Hc.
  rewrite new_device_code in Hc. injection Hc as <-.
  unfold location_flag. rewrite Hl. simpl default.
  unfold in_literals, TRUE_TOKENS. simpl existsb. split.
  - intros Hne. assert (E : eq_str v "1" = false).
    { destruct (eq_str v "1") eqn:E; [| reflexivity].
      apply eq_str_spec in E. contradiction. }
    rewrite E. destruct (eq_str v "true"), (eq_int v 1); reflexivity.
  - intros ->. split; reflexivity.
Qed.

Lemma boolean_fields_differ_on_text_one_witness :
  exists vec,
    preprocess_input
      (JObj (<["new_device" := JStr "1"]> (<["location_mismatch" := JStr "1"]> ∅)))
    = Ok vec
    /\ vec !! 8%nat = Some 0%float /\ vec !! 10%nat = Some 1%float.
Proof.
  destruct (preprocess_input
              (JObj (<["new_device" := JStr "1"]>
                       (<["location_mismatch" := JStr "1"]> ∅))))
    as [vec|e] eqn:E; [| vm_compute in E; discriminate].
  exists vec. split; [reflexivity |].
  apply (boolean_fields_differ_on_text_one _ vec (JStr "1") E eq_refl eq_refl).
  reflexivity.
Defined.

(* ===================================================================== *)
(** ** Further properties: the options offered to the front end *)
(* ===================================================================== *)

(** A string is found by a dictionary exactly when it is one of its keys. *)
Lemma dict_find_str mapping s :
  (exists code, dict_find mapping (JStr s) = Some code) <-> LStr s ∈ mapping.*1.
Proof.
  split.
  - intros [code H]. destruct (dict_find_Some _ _ _ H) as (key & Hk & E).
    apply eq_literal_str in E as ->.
    apply (list_elem_of_fmap_2 fst) in Hk. exact Hk.
  - intros H. apply list_elem_of_fmap in H as ([key code] & E & Hk).
    simpl in E. subst key. unfold dict_find.
    destruct (find (fun kv => eq_literal (JStr s) (fst kv)) mapping)
      as [[k c]|] eqn:F; [eexists; reflexivity |].
    apply list_elem_of_In in Hk.
    pose proof (find_none _ _ F _ Hk) as X. simpl in X.
    rewrite String.eqb_refl in X. discriminate.
Qed.

(** The lists of [get_options] against the dictionaries of their fields. *)
Lemma options_table :
  Forall (fun nf =>
    Forall (fun no => fst no = fst nf ->
      Forall (fun fm => fst fm = snd nf ->
          NoDup (snd no)
          /\ Forall (fun s => LStr s ∈ (snd fm).*1) (snd no)
          /\ Forall (fun k => k ∈ LStr <$> snd no) (snd fm).*1)
        CATEGORICAL_MAPPINGS)
      get_options)
    OPTION_FIELDS.
Proof. by_evaluation. Qed.

(** X17: the options [get_options] offers for a field are exactly the
    tokens the encoder knows for it: each option is a key of the field's
    dictionary, each key is offered, and no option is listed twice. So a
    value picked from the list is never encoded by the fallback. *)
Theorem options_match_mappings name field opts mapping :
  (name, field) ∈ OPTION_FIELDS -> (name, opts) ∈ get_options ->
  (field, mapping) ∈ CATEGORICAL_MAPPINGS ->
  NoDup opts
  /\ forall s, s ∈ opts <-> exists code, dict_find mapping (JStr s) = Some code.
Proof.
  intros Hnf Hno Hfm. pose proof options_table as T.
  rewrite Forall_forall in T. specialize (T _ Hnf). simpl in T.
  rewrite Forall_forall in T. specialize (T _ Hno eq_refl). simpl in T.
  rewrite Forall_forall in T. destruct (T _ Hfm eq_refl) as (Hnd & Ho & Hk).
  cbn [fst snd] in Hnd, Ho, Hk.
  rewrite Forall_forall in Ho. rewrite Forall_forall in Hk.
  split; [exact Hnd |]. intros s. rewrite dict_find_str. split.
  - apply Ho.
  - intros H. apply Hk, list_elem_of_fmap in H as (t & [= ->] & Ht). exact Ht.
Qed.

Lemma options_match_mappings_witness :
  "NGN" ∈ ["USD"; "CAD"; "GBP"; "EUR"; "MXN"; "CNY"; "INR"; "PHP"; "NGN"]
  <-> exists code,
        dict_find [(LStr "CAD", 0); (LStr "CNY", 1); (LStr "EUR", 2);
                   (LStr "GBP", 3); (LStr "INR", 4); (LStr "MXN", 5);
                   (LStr "NGN", 6); (LStr "PHP", 7); (LStr "USD", 8)]
                  (JStr "NGN") = Some code.
Proof.
  apply (options_match_mappings "dest_currencies" "dest_currency" _ _
           ltac:(at_position 2%nat) ltac:(at_position 2%nat)
           ltac:(at_position 2%nat)).
Defined.
